(** * AdmiralSquidstatWrapper: a shallow embedding of [src/admiral.py]

    The wrapper is procedural glue around a closed vendor driver.  The
    embedding keeps the wrapper's own code and turns everything the driver
    decides (the handler it hands out, the error codes it answers with, the
    callbacks it emits) into an oracle the theorems quantify over.

    - a pandas [DataFrame] is its column header and the list of its rows,
      a row being the dict [{column: cell}] the source builds it from;
    - Python values that the wrapper only carries around (floats, ints,
      bools of the payloads and of the experiment parameters) are an
      abstract type [value];
    - a method is a computation over the [world] (the attributes of [self],
      standard output, the log of driver calls) that returns or raises. *)

From Stdlib Require Import List String ZArith Lia Bool DecimalString.
Import ListNotations.

Set Implicit Arguments.

(** ** pandas, as far as the wrapper uses it *)

Module pd.
Section Frames.
Variable value : Type.

(** One row, as the dict of its cells in column order. *)
Definition row : Type := list (string * value).

Record DataFrame : Type := mkDataFrame {
    columns : list string;
    rows : list row
  }.

(** [pd.DataFrame(columns=[...])]: a header and no row. *)
Definition of_columns (cols : list string) : DataFrame :=
    {| columns := cols; rows := [] |}.

(** [pd.DataFrame({c1: [v1], c2: [v2], ...})]: one row, the keys of the
      dict as header. *)
Definition of_dict (d : row) : DataFrame :=
    {| columns := map fst d; rows := [d] |}.

Definition mem (c : string) (cs : list string) : bool :=
    existsb (String.eqb c) cs.

(** [pd.concat([a, b])] (outer join on the columns, axis 0, no sorting):
      the header of [a] followed by the columns only [b] has, the rows of
      [a] followed by the rows of [b]. *)
Definition concat (a b : DataFrame) : DataFrame :=
    {| columns := columns a ++ filter (fun c => negb (mem c (columns a))) (columns b);
       rows := rows a ++ rows b |}.

(** [df.empty]: some axis has length 0. *)
Definition empty (df : DataFrame) : bool :=
    match columns df, rows df with
    | [], _ => true
    | _, [] => true
    | _, _ => false
    end.
End Frames.
End pd.

(** ** Payloads of the driver's callbacks *)

Module AisDCData.
Record t (value : Type) : Type := mk {
    timestamp : option value;
    workingElectrodeVoltage : value;
    current : value;
    temperature : value
  }.
End AisDCData.

Module AisACData.
Record t (value : Type) : Type := mk {
    timestamp : option value;
    frequency : value;
    absoluteImpedance : value;
    phaseAngle : value;
    realImpedance : value;
    imagImpedance : value;
    totalHarmonicDistortion : value;
    numberOfCycles : value;
    workingElectrodeDCVoltage : value;
    DCCurrent : value;
    currentAmplitude : value;
    voltageAmplitude : value
  }.
End AisACData.

Module AisExperimentNode.
Record t (value : Type) : Type := mk {
    stepName : value;
    stepNumber : value;
    substepNumber : value
  }.
End AisExperimentNode.

(** What the driver answers to an upload or a start; the source tests it
    with [error != 0] and reads [error.message()]. *)
Record AisErrorCode : Type := mkError {
  code : Z;
  message : string
}.

Definition nonzero (e : AisErrorCode) : bool := negb (code e =? 0)%Z.

(** ** Experiment elements and experiments *)

Section Elements.
Variable value : Type.

(** One constructor per driver element class, with the arguments of the
      constructor call in their positions. *)
Inductive element : Type :=
  | AisEISPotentiostaticElement (a1 a2 a3 a4 a5 : value)
  | AisCyclicVoltammetryElement (a1 a2 a3 a4 a5 a6 : value)
  | AisConstantCurrentElement (a1 a2 a3 : value)
  | AisConstantPotElement (a1 a2 a3 : value)
  | AisConstantPowerElement (a1 a2 a3 a4 : value)
  | AisConstantResistanceElement (a1 a2 a3 : value)
  | AisDCCurrentSweepElement (a1 a2 a3 a4 : value)
  | AisDCPotentialSweepElement (a1 a2 a3 a4 : value)
  | AisDiffPulseVoltammetryElement (a1 a2 a3 a4 a5 a6 : value)
  | AisNormalPulseVoltammetryElement (a1 a2 a3 a4 a5 : value)
  | AisSquareWaveVoltammetryElement (a1 a2 a3 a4 a5 a6 : value)
  | AisEISGalvanostaticElement (a1 a2 a3 a4 a5 : value)
  | AisOpenCircuitElement (a1 a2 : value).


(** [AisExperiment()] is the empty experiment; [appendElement(e, n)] and
      [appendElement(e)] add the element with the repeat count it was given,
      if any. *)
Definition AisExperiment : Type := list (element * option value).

Definition new_experiment : AisExperiment := [].

Definition appendElement (x : AisExperiment) (e : element) (n : option value)
    : AisExperiment := x ++ [(e, n)].
End Elements.

(** ** Qt signals, the driver, the world *)

(** The signals of the tracker and of the instrument handler. *)
Inductive signal : Type :=
| newDeviceConnected
| activeDCDataReady
| activeACDataReady
| experimentNewElementStarting
| experimentStopped.

(** The bound methods of the wrapper that are connected to signals. *)
Inductive slot : Type :=
| self_on_device_connected
| self_handle_dc_data
| self_handle_ac_data
| self_handle_new_element
| self_handle_experiment_stopped.

Inductive exception : Type :=
| AttributeError   (* a method called on [None] *)
| TypeError.       (* a slot called with the arguments of another signal *)

Inductive outcome (A : Type) : Type :=
| Returned (a : A)
| Raised (e : exception).
Arguments Raised {A} e.

Definition string_of_Z (z : Z) : string := NilZero.string_of_int (Z.to_int z).

Definition newline : string := String (Ascii.ascii_of_nat 10) EmptyString.

Section World.
Variable value : Type.

(** What the driver emits while the event loop runs. *)
Inductive emission : Type :=
  | emit_newDeviceConnected (device_name : string)
  | emit_activeDCDataReady (channel : Z) (data : AisDCData.t value)
  | emit_activeACDataReady (channel : Z) (data : AisACData.t value)
  | emit_experimentNewElementStarting (channel : Z) (data : AisExperimentNode.t value)
  | emit_experimentStopped (channel : Z).

Definition signal_of (e : emission) : signal :=
    match e with
    | emit_newDeviceConnected _ => newDeviceConnected
    | emit_activeDCDataReady _ _ => activeDCDataReady
    | emit_activeACDataReady _ _ => activeACDataReady
    | emit_experimentNewElementStarting _ _ => experimentNewElementStarting
    | emit_experimentStopped _ => experimentStopped
    end.

(** The calls the wrapper makes into the driver, as they are logged. *)
Inductive driver_call : Type :=
  | connectToDeviceOnComPort (port : string)
  | getInstrumentHandler (instrument_name : string)
  | uploadExperimentToChannel (channel : Z) (experiment : AisExperiment value)
  | startUploadedExperiment (channel : Z).

(** The driver is closed source: its answers are an oracle over the calls
      made so far.  [getInstrumentHandler] may find no instrument. *)
Record driver : Type := mkDriver {
    instrument_found : list driver_call -> string -> bool;
    upload_result : list driver_call -> Z -> AisExperiment value -> AisErrorCode;
    start_result : list driver_call -> Z -> AisErrorCode
  }.

(** The attributes of [self] and the part of the process the wrapper
      acts on. *)
Record world : Type := mkWorld {
    channel : Z;
    handler : option string;
    ac_data_list : pd.DataFrame value;
    dc_data_list : pd.DataFrame value;
    new_element_list : pd.DataFrame value;
    connections : list (signal * slot);
    quit_requested : bool;
    stdout : list string;
    driver_log : list driver_call
  }.

(** *** Computations: state that survives a raise *)

Definition M (A : Type) : Type := world -> outcome A * world.

Definition ret {A} (a : A) : M A := fun w => (Returned a, w).

Definition bind {A B} (c : M A) (k : A -> M B) : M B :=
    fun w =>
      match c w with
      | (Returned a, w') => k a w'
      | (Raised e, w') => (Raised e, w')
      end.

Definition raise {A} (e : exception) : M A := fun w => (Raised e, w).

Definition get : M world := fun w => (Returned w, w).

Definition modify (f : world -> world) : M unit := fun w => (Returned tt, f w).

Definition exec {A} (c : M A) (w : world) : world := snd (c w).

Definition result {A} (c : M A) (w : world) : outcome A := fst (c w).
End World.

Arguments ret {value A} a.
Arguments raise {value A} e.
Arguments get {value}.
Arguments emit_newDeviceConnected {value} device_name.
Arguments emit_experimentStopped {value} channel.
Arguments connectToDeviceOnComPort {value} port.
Arguments getInstrumentHandler {value} instrument_name.
Arguments startUploadedExperiment {value} channel.

Declare Scope py_scope.
Delimit Scope py_scope with py.
Notation "x <- c ;; k" := (bind c (fun x => k))
  (at level 61, c at next level, right associativity) : py_scope.
Notation "c ;; k" := (bind c (fun _ => k))
  (at level 61, right associativity) : py_scope.

Local Open Scope string_scope.
Local Open Scope list_scope.
Local Open Scope py_scope.

(** ** The class [AdmiralSquidstatWrapper] *)

Definition ac_columns : list string :=
  [ "Timestamp"; "Frequency [Hz]"; "Absolute Impedance"; "Phase Angle";
    "Real Impedance"; "Imaginary Impedance"; "Total Harmonic Distortion";
    "Number of Cycles"; "Working electrode DC Voltage [V]"; "DC Current [A]";
    "Current Amplitude"; "Voltage Amplitude" ].

Definition dc_columns : list string :=
  [ "Timestamp"; "Working Electrode Voltage [V]";
    "Working Electrode Current [A]"; "Temperature [C]" ].

Definition new_element_columns : list string :=
  [ "Step Name"; "Step Number"; "Substep Number" ].

Section Methods.
Variable value : Type.
Variable drv : driver value.

(** *** Attribute assignment and the two effects on the process *)

Definition set_ac_data_list (df : pd.DataFrame value) : M value unit :=
  modify (fun w =>
    mkWorld (channel w) (handler w) df (dc_data_list w) (new_element_list w)
            (connections w) (quit_requested w) (stdout w) (driver_log w)).

Definition set_dc_data_list (df : pd.DataFrame value) : M value unit :=
  modify (fun w =>
    mkWorld (channel w) (handler w) (ac_data_list w) df (new_element_list w)
            (connections w) (quit_requested w) (stdout w) (driver_log w)).

Definition set_new_element_list (df : pd.DataFrame value) : M value unit :=
  modify (fun w =>
    mkWorld (channel w) (handler w) (ac_data_list w) (dc_data_list w) df
            (connections w) (quit_requested w) (stdout w) (driver_log w)).

Definition set_channel (c : Z) : M value unit :=
  modify (fun w =>
    mkWorld c (handler w) (ac_data_list w) (dc_data_list w) (new_element_list w)
            (connections w) (quit_requested w) (stdout w) (driver_log w)).

Definition set_handler (h : option string) : M value unit :=
  modify (fun w =>
    mkWorld (channel w) h (ac_data_list w) (dc_data_list w) (new_element_list w)
            (connections w) (quit_requested w) (stdout w) (driver_log w)).

(** [signal.connect(slot)] *)
Definition connect (s : signal) (f : slot) : M value unit :=
  modify (fun w =>
    mkWorld (channel w) (handler w) (ac_data_list w) (dc_data_list w)
            (new_element_list w) (connections w ++ [(s, f)])
            (quit_requested w) (stdout w) (driver_log w)).

(** [self.app.quit()] *)
Definition app_quit : M value unit :=
  modify (fun w =>
    mkWorld (channel w) (handler w) (ac_data_list w) (dc_data_list w)
            (new_element_list w) (connections w) true (stdout w) (driver_log w)).

(** [print(s)]: one entry of standard output per call. *)
Definition print (s : string) : M value unit :=
  modify (fun w =>
    mkWorld (channel w) (handler w) (ac_data_list w) (dc_data_list w)
            (new_element_list w) (connections w) (quit_requested w)
            (stdout w ++ [s]) (driver_log w)).

(** A call into the driver is logged; the oracle answers from the log as it
    was before the call. *)
Definition call_driver (c : driver_call value) : M value unit :=
  modify (fun w =>
    mkWorld (channel w) (handler w) (ac_data_list w) (dc_data_list w)
            (new_element_list w) (connections w) (quit_requested w)
            (stdout w) (driver_log w ++ [c])).

(** [time.sleep(1)] changes nothing the wrapper can see. *)
Definition sleep : M value unit := ret tt.

(** *** [get_data], [clear_data] *)

Definition get_data : M value (option (pd.DataFrame value) * option (pd.DataFrame value)) :=
  print "Returning data" ;;
  w <- get ;;
  if pd.empty (ac_data_list w) then
    print ("No AC data available " ++ newline) ;;
    ret (None, Some (dc_data_list w))
  else if pd.empty (dc_data_list w) then
    print ("No DC data available " ++ newline) ;;
    ret (Some (ac_data_list w), None)
  else
    print EmptyString ;;
    ret (Some (ac_data_list w), Some (dc_data_list w)).

Definition clear_data : M value unit :=
  set_ac_data_list (pd.of_columns value ac_columns) ;;
  set_dc_data_list (pd.of_columns value dc_columns) ;;
  sleep.

(** *** The callbacks *)

Definition dc_row (timestamp : value) (data : AisDCData.t value) : pd.row value :=
  [ ("Timestamp", timestamp);
    ("Working Electrode Voltage [V]", AisDCData.workingElectrodeVoltage data);
    ("Working Electrode Current [A]", AisDCData.current data);
    ("Temperature [C]", AisDCData.temperature data) ].

Definition handle_dc_data (channel : Z) (data : AisDCData.t value) : M value unit :=
  match AisDCData.timestamp data with
  | Some timestamp =>
      w <- get ;;
      set_dc_data_list (pd.concat (dc_data_list w) (pd.of_dict (dc_row timestamp data)))
  | None => ret tt
  end.

Definition ac_row (timestamp : value) (data : AisACData.t value) : pd.row value :=
  [ ("Timestamp", timestamp);
    ("Frequency [Hz]", AisACData.frequency data);
    ("Absolute Impedance", AisACData.absoluteImpedance data);
    ("Phase Angle", AisACData.phaseAngle data);
    ("Real Impedance", AisACData.realImpedance data);
    ("Imaginary Impedance", AisACData.imagImpedance data);
    ("Total Harmonic Distortion", AisACData.totalHarmonicDistortion data);
    ("Number of Cycles", AisACData.numberOfCycles data);
    ("Working electrode DC Voltage [V]", AisACData.workingElectrodeDCVoltage data);
    ("DC Current [A]", AisACData.DCCurrent data);
    ("Current Amplitude", AisACData.currentAmplitude data);
    ("Voltage Amplitude", AisACData.voltageAmplitude data) ].

Definition handle_ac_data (channel : Z) (data : AisACData.t value) : M value unit :=
  match AisACData.timestamp data with
  | Some timestamp =>
      w <- get ;;
      set_ac_data_list (pd.concat (ac_data_list w) (pd.of_dict (ac_row timestamp data)))
  | None => ret tt
  end.

Definition new_element_row (data : AisExperimentNode.t value) : pd.row value :=
  [ ("Step Name", AisExperimentNode.stepName data);
    ("Step Number", AisExperimentNode.stepNumber data);
    ("Substep Number", AisExperimentNode.substepNumber data) ].

Definition handle_new_element (channel : Z) (data : AisExperimentNode.t value) : M value unit :=
  w <- get ;;
  set_new_element_list (pd.concat (new_element_list w) (pd.of_dict (new_element_row data))).

Definition on_device_connected (device_name : string) : M value unit :=
  print ("Device is connected as: " ++ device_name ++ " " ++ newline
         ++ "Please use this name when loading the AdmiralWrapper.").

Definition handle_experiment_stopped (channel : Z) : M value unit :=
  print ("Experiment completed on channel: " ++ string_of_Z channel) ;;
  app_quit.

(** *** Connecting, uploading, starting *)

Definition connect_to_device (port instrument_name : string) : M value unit :=
  connect newDeviceConnected self_on_device_connected ;;
  call_driver (connectToDeviceOnComPort port) ;;
  w <- get ;;
  call_driver (getInstrumentHandler instrument_name) ;;
  set_handler (if instrument_found drv (driver_log w) instrument_name
               then Some instrument_name else None).

Definition setup_data_handlers : M value unit :=
  w <- get ;;
  match handler w with
  | None => raise AttributeError
  | Some _ =>
      connect activeDCDataReady self_handle_dc_data ;;
      connect activeACDataReady self_handle_ac_data ;;
      connect experimentNewElementStarting self_handle_new_element ;;
      connect experimentStopped self_handle_experiment_stopped
  end.

Definition upload_experiment (experiment : AisExperiment value) : M value unit :=
  print "Uploading experiment" ;;
  w <- get ;;
  match handler w with
  | None => raise AttributeError
  | Some _ =>
      call_driver (uploadExperimentToChannel (channel w) experiment) ;;
      let error := upload_result drv (driver_log w) (channel w) experiment in
      if nonzero error then print (message error) else ret tt
  end.

Definition start_experiment : M value unit :=
  print "Setting potentiostat in start experiment modus" ;;
  w <- get ;;
  match handler w with
  | None => raise AttributeError
  | Some _ =>
      call_driver (startUploadedExperiment (channel w)) ;;
      let error := start_result drv (driver_log w) (channel w) in
      if nonzero error then print (message error) else ret tt
  end.

Definition __init__ (port instrument_name : string) : M value unit :=
  set_handler None ;;
  set_channel 0 ;;
  set_ac_data_list (pd.of_columns value ac_columns) ;;
  set_dc_data_list (pd.of_columns value dc_columns) ;;
  set_new_element_list (pd.of_columns value new_element_columns) ;;
  connect_to_device port instrument_name ;;
  setup_data_handlers.

Definition __del__ : M value unit :=
  app_quit ;;
  sleep.

Definition close_experiment : M value unit := __del__.

(** *** The event loop: [run_experiment] is [self.app.exec_()] *)

(** A slot called with the arguments its signal carries. *)
Definition call_slot (f : slot) (e : emission value) : M value unit :=
  match f, e with
  | self_on_device_connected, emit_newDeviceConnected device_name =>
      on_device_connected device_name
  | self_handle_dc_data, emit_activeDCDataReady channel data =>
      handle_dc_data channel data
  | self_handle_ac_data, emit_activeACDataReady channel data =>
      handle_ac_data channel data
  | self_handle_new_element, emit_experimentNewElementStarting channel data =>
      handle_new_element channel data
  | self_handle_experiment_stopped, emit_experimentStopped channel =>
      handle_experiment_stopped channel
  | _, _ => raise TypeError
  end.

Definition signal_eqb (a b : signal) : bool :=
  match a, b with
  | newDeviceConnected, newDeviceConnected
  | activeDCDataReady, activeDCDataReady
  | activeACDataReady, activeACDataReady
  | experimentNewElementStarting, experimentNewElementStarting
  | experimentStopped, experimentStopped => true
  | _, _ => false
  end.

(** One emission: every slot connected to its signal runs, in connection
    order; an exception that escapes a slot does not stop the loop. *)
Definition deliver (e : emission value) (w : world value) : world value :=
  fold_left
    (fun w' c => if signal_eqb (fst c) (signal_of e)
                 then exec (call_slot (snd c) e) w' else w')
    (connections w) w.

(** The loop takes the pending emissions one by one and leaves once a slot
    has asked to quit; the emissions not taken are handed back.  [None]: the
    emissions run out with no quit, the loop never returns. *)
Fixpoint event_loop (pending : list (emission value)) (w : world value)
  : option (world value * list (emission value)) :=
  match pending with
  | [] => None
  | e :: rest =>
      let w' := deliver e w in
      if quit_requested w' then Some (w', rest) else event_loop rest w'
  end.

Definition exec_ (pending : list (emission value)) (w : world value) :=
  event_loop pending
    (mkWorld (channel w) (handler w) (ac_data_list w) (dc_data_list w)
             (new_element_list w) (connections w) false (stdout w) (driver_log w)).

Definition run_experiment (pending : list (emission value)) (w : world value)
  : option (world value * list (emission value)) :=
  exec_ pending w.
(** *** The experiment presets

    Every parameter is passed explicitly: a default of the source is what the
    caller gets for an argument it leaves out. *)

Definition setup_EIS_potentiostatic
  (start_frequency end_frequency points_per_decade voltage_bias voltage_amplitude number_of_runs : value) : M value unit :=
  print (newline ++ "*** Preparing EIS experiment") ;;
  let experiment := new_experiment value in
  let element := AisEISPotentiostaticElement start_frequency end_frequency points_per_decade voltage_bias voltage_amplitude in
  let experiment := appendElement experiment element (Some number_of_runs) in
  upload_experiment experiment ;;
  start_experiment.

Definition setup_cyclic_voltammetry
  (startVoltage firstVoltageLimit secondVoltageLimit endVoltage scanRate samplingInterval cycles : value) : M value unit :=
  print (newline ++ "*** Preparing CV experiment") ;;
  let experiment := new_experiment value in
  let element := AisCyclicVoltammetryElement startVoltage firstVoltageLimit secondVoltageLimit endVoltage scanRate samplingInterval in
  let experiment := appendElement experiment element (Some cycles) in
  upload_experiment experiment ;;
  start_experiment.

Definition setup_constant_current
  (holdAtCurrent samplingInterval duration : value) : M value unit :=
  print (newline ++ "*** Preparing CP experiment") ;;
  let experiment := new_experiment value in
  let element := AisConstantCurrentElement holdAtCurrent samplingInterval duration in
  let experiment := appendElement experiment element None in
  upload_experiment experiment ;;
  start_experiment.

Definition setup_constant_potential
  (holdAtVoltage samplingInterval duration : value) : M value unit :=
  print (newline ++ "*** Preparing CP experiment") ;;
  let experiment := new_experiment value in
  let element := AisConstantPotElement holdAtVoltage samplingInterval duration in
  let experiment := appendElement experiment element None in
  upload_experiment experiment ;;
  start_experiment.

Definition setup_constant_power
  (isCharge powerVal duration samplingInterval : value) : M value unit :=
  print (newline ++ "*** Preparing CP experiment") ;;
  let experiment := new_experiment value in
  let element := AisConstantPowerElement isCharge powerVal duration samplingInterval in
  let experiment := appendElement experiment element None in
  upload_experiment experiment ;;
  start_experiment.

Definition setup_constant_resistance
  (resistanceVal duration samplingInterval : value) : M value unit :=
  print (newline ++ "*** Preparing CP experiment") ;;
  let experiment := new_experiment value in
  let element := AisConstantResistanceElement resistanceVal duration samplingInterval in
  let experiment := appendElement experiment element None in
  upload_experiment experiment ;;
  start_experiment.

Definition setup_DC_current_sweep
  (startCurrent endCurrent scanRate samplingInterval : value) : M value unit :=
  print (newline ++ "*** Preparing DC current sweep experiment") ;;
  let experiment := new_experiment value in
  let element := AisDCCurrentSweepElement startCurrent endCurrent scanRate samplingInterval in
  let experiment := appendElement experiment element None in
  upload_experiment experiment ;;
  start_experiment.

Definition setup_DC_potential_sweep
  (startPotential endPotential scanRate samplingInterval : value) : M value unit :=
  print (newline ++ "*** Preparing DC potential sweep experiment") ;;
  let experiment := new_experiment value in
  let element := AisDCPotentialSweepElement startPotential endPotential scanRate samplingInterval in
  let experiment := appendElement experiment element None in
  upload_experiment experiment ;;
  start_experiment.

Definition setup_diff_pulse_voltammetry
  (startPotential endPotential potentialStep pulseHeight pulseWidth pulsePeriod : value) : M value unit :=
  print (newline ++ "*** Preparing DPV experiment") ;;
  let experiment := new_experiment value in
  let element := AisDiffPulseVoltammetryElement startPotential endPotential potentialStep pulseHeight pulseWidth pulsePeriod in
  let experiment := appendElement experiment element None in
  upload_experiment experiment ;;
  start_experiment.

Definition setup_normal_pulse_voltammetry
  (startPotential endPotential potentialStep pulseWidth pulsePeriod : value) : M value unit :=
  print (newline ++ "*** Preparing NPV experiment") ;;
  let experiment := new_experiment value in
  let element := AisNormalPulseVoltammetryElement startPotential endPotential potentialStep pulseWidth pulsePeriod in
  let experiment := appendElement experiment element None in
  upload_experiment experiment ;;
  start_experiment.

Definition setup_square_wave
  (startPotential firstVoltageLimit secondVoltageLimit endVoltage scanRate samplingInterval cycles : value) : M value unit :=
  print (newline ++ "*** Preparing SWV experiment") ;;
  let experiment := new_experiment value in
  let element := AisSquareWaveVoltammetryElement startPotential firstVoltageLimit secondVoltageLimit endVoltage scanRate samplingInterval in
  let experiment := appendElement experiment element (Some cycles) in
  upload_experiment experiment ;;
  start_experiment.

Definition setup_EIS_Galvanostatic
  (start_frequency end_frequency points_per_decade current_bias current_amplitude number_of_runs : value) : M value unit :=
  print (newline ++ "*** Preparing EIS experiment") ;;
  let experiment := new_experiment value in
  let element := AisEISGalvanostaticElement start_frequency end_frequency points_per_decade current_bias current_amplitude in
  let experiment := appendElement experiment element (Some number_of_runs) in
  upload_experiment experiment ;;
  start_experiment.

Definition setup_OCP
  (duration samplingInterval : value) : M value unit :=
  print (newline ++ "*** Preparing OCP experiment") ;;
  let experiment := new_experiment value in
  let element := AisOpenCircuitElement duration samplingInterval in
  let experiment := appendElement experiment element None in
  upload_experiment experiment ;;
  start_experiment.

(** *** Calls, as data

    A preset call with its arguments, so that a statement can range over
    every experiment-setup call. *)

Inductive setup_call : Type :=
| call_setup_EIS_potentiostatic (start_frequency end_frequency points_per_decade voltage_bias voltage_amplitude number_of_runs : value)
| call_setup_cyclic_voltammetry (startVoltage firstVoltageLimit secondVoltageLimit endVoltage scanRate samplingInterval cycles : value)
| call_setup_constant_current (holdAtCurrent samplingInterval duration : value)
| call_setup_constant_potential (holdAtVoltage samplingInterval duration : value)
| call_setup_constant_power (isCharge powerVal duration samplingInterval : value)
| call_setup_constant_resistance (resistanceVal duration samplingInterval : value)
| call_setup_DC_current_sweep (startCurrent endCurrent scanRate samplingInterval : value)
| call_setup_DC_potential_sweep (startPotential endPotential scanRate samplingInterval : value)
| call_setup_diff_pulse_voltammetry (startPotential endPotential potentialStep pulseHeight pulseWidth pulsePeriod : value)
| call_setup_normal_pulse_voltammetry (startPotential endPotential potentialStep pulseWidth pulsePeriod : value)
| call_setup_square_wave (startPotential firstVoltageLimit secondVoltageLimit endVoltage scanRate samplingInterval cycles : value)
| call_setup_EIS_Galvanostatic (start_frequency end_frequency points_per_decade current_bias current_amplitude number_of_runs : value)
| call_setup_OCP (duration samplingInterval : value).


Definition invoke (c : setup_call) : M value unit :=
  match c with
  | call_setup_EIS_potentiostatic a1 a2 a3 a4 a5 a6 => setup_EIS_potentiostatic a1 a2 a3 a4 a5 a6
  | call_setup_cyclic_voltammetry a1 a2 a3 a4 a5 a6 a7 => setup_cyclic_voltammetry a1 a2 a3 a4 a5 a6 a7
  | call_setup_constant_current a1 a2 a3 => setup_constant_current a1 a2 a3
  | call_setup_constant_potential a1 a2 a3 => setup_constant_potential a1 a2 a3
  | call_setup_constant_power a1 a2 a3 a4 => setup_constant_power a1 a2 a3 a4
  | call_setup_constant_resistance a1 a2 a3 => setup_constant_resistance a1 a2 a3
  | call_setup_DC_current_sweep a1 a2 a3 a4 => setup_DC_current_sweep a1 a2 a3 a4
  | call_setup_DC_potential_sweep a1 a2 a3 a4 => setup_DC_potential_sweep a1 a2 a3 a4
  | call_setup_diff_pulse_voltammetry a1 a2 a3 a4 a5 a6 => setup_diff_pulse_voltammetry a1 a2 a3 a4 a5 a6
  | call_setup_normal_pulse_voltammetry a1 a2 a3 a4 a5 => setup_normal_pulse_voltammetry a1 a2 a3 a4 a5
  | call_setup_square_wave a1 a2 a3 a4 a5 a6 a7 => setup_square_wave a1 a2 a3 a4 a5 a6 a7
  | call_setup_EIS_Galvanostatic a1 a2 a3 a4 a5 a6 => setup_EIS_Galvanostatic a1 a2 a3 a4 a5 a6
  | call_setup_OCP a1 a2 => setup_OCP a1 a2
  end.
(** *** A session in use: any sequence of calls on the constructed object

    The caller may call any method, the callbacks included; [run_experiment]
    comes with the emissions that are pending when it is called. *)

Inductive method_call : Type :=
| do_get_data
| do_clear_data
| do_handle_dc_data (channel : Z) (data : AisDCData.t value)
| do_handle_ac_data (channel : Z) (data : AisACData.t value)
| do_handle_new_element (channel : Z) (data : AisExperimentNode.t value)
| do_on_device_connected (device_name : string)
| do_handle_experiment_stopped (channel : Z)
| do_connect_to_device (port instrument_name : string)
| do_setup_data_handlers
| do_upload_experiment (experiment : AisExperiment value)
| do_start_experiment
| do_run_experiment (pending : list (emission value))
| do_close_experiment
| do_setup (c : setup_call).

(** The world after the call; [None] when the call never returns.  A call
    that raises leaves the world as it was at the raise, and the caller goes
    on. *)
Definition perform (m : method_call) (w : world value) : option (world value) :=
  match m with
  | do_get_data => Some (exec get_data w)
  | do_clear_data => Some (exec clear_data w)
  | do_handle_dc_data channel data => Some (exec (handle_dc_data channel data) w)
  | do_handle_ac_data channel data => Some (exec (handle_ac_data channel data) w)
  | do_handle_new_element channel data => Some (exec (handle_new_element channel data) w)
  | do_on_device_connected device_name => Some (exec (on_device_connected device_name) w)
  | do_handle_experiment_stopped channel => Some (exec (handle_experiment_stopped channel) w)
  | do_connect_to_device port instrument_name =>
      Some (exec (connect_to_device port instrument_name) w)
  | do_setup_data_handlers => Some (exec setup_data_handlers w)
  | do_upload_experiment experiment => Some (exec (upload_experiment experiment) w)
  | do_start_experiment => Some (exec start_experiment w)
  | do_run_experiment pending => option_map fst (run_experiment pending w)
  | do_close_experiment => Some (exec close_experiment w)
  | do_setup c => Some (exec (invoke c) w)
  end.

Fixpoint perform_all (ms : list method_call) (w : world value) : option (world value) :=
  match ms with
  | [] => Some w
  | m :: ms' =>
      match perform m w with
      | Some w' => perform_all ms' w'
      | None => None
      end
  end.

(** *** Vocabulary of the statements *)

(** The connections [__init__] makes, in the order it makes them. *)
Definition wiring : list (signal * slot) :=
  [ (newDeviceConnected, self_on_device_connected);
    (activeDCDataReady, self_handle_dc_data);
    (activeACDataReady, self_handle_ac_data);
    (experimentNewElementStarting, self_handle_new_element);
    (experimentStopped, self_handle_experiment_stopped) ].

(** A session as [__init__] leaves it when the instrument is found: a
    handler, and each signal connected once to its slot. *)
Definition constructed (w : world value) : Prop :=
  handler w <> None /\ connections w = wiring.

(** The rows a sequence of AC (DC) payloads contributes: one per payload
    that carries a timestamp. *)
Definition ac_rows_of (ds : list (Z * AisACData.t value)) : list (pd.row value) :=
  flat_map (fun cd =>
    match AisACData.timestamp (snd cd) with
    | Some timestamp => [ac_row timestamp (snd cd)]
    | None => []
    end) ds.

Definition dc_rows_of (ds : list (Z * AisDCData.t value)) : list (pd.row value) :=
  flat_map (fun cd =>
    match AisDCData.timestamp (snd cd) with
    | Some timestamp => [dc_row timestamp (snd cd)]
    | None => []
    end) ds.

Definition ac_emissions (ds : list (Z * AisACData.t value)) : list (emission value) :=
  map (fun cd => emit_activeACDataReady (fst cd) (snd cd)) ds.

Definition dc_emissions (ds : list (Z * AisDCData.t value)) : list (emission value) :=
  map (fun cd => emit_activeDCDataReady (fst cd) (snd cd)) ds.

(** Does the payload carry a timestamp? *)
Definition ac_stamped (cd : Z * AisACData.t value) : bool :=
  match AisACData.timestamp (snd cd) with
  | Some _ => true
  | None => false
  end.

Definition dc_stamped (cd : Z * AisDCData.t value) : bool :=
  match AisDCData.timestamp (snd cd) with
  | Some _ => true
  | None => false
  end.

(** The driver calls that name a channel name this one. *)
Definition targets (c : Z) (d : driver_call value) : Prop :=
  match d with
  | uploadExperimentToChannel channel _ => channel = c
  | startUploadedExperiment channel => channel = c
  | _ => True
  end.

(** [w'] is a later state of the session [w]: same channel, a driver log
    that grew by calls on that channel, a step table that grew at its end. *)
Definition later (w w' : world value) : Prop :=
  channel w' = channel w
  /\ (exists l, driver_log w' = driver_log w ++ l /\ Forall (targets (channel w)) l)
  /\ (exists r, pd.rows (new_element_list w') = pd.rows (new_element_list w) ++ r).

(** What a caller can read off a returned table: nothing, for [None] as for
    a frame that is empty. *)
Definition shows_no_data (o : option (pd.DataFrame value)) : bool :=
  match o with
  | None => true
  | Some df => pd.empty df
  end.


(** Two worlds with the same attributes of [self] and the same Qt state. *)
Definition same_attributes (w w' : world value) : Prop :=
  channel w' = channel w /\ handler w' = handler w
  /\ ac_data_list w' = ac_data_list w /\ dc_data_list w' = dc_data_list w
  /\ new_element_list w' = new_element_list w
  /\ connections w' = connections w /\ quit_requested w' = quit_requested w.
End Methods.

Arguments do_get_data {value}.
Arguments do_clear_data {value}.
Arguments do_on_device_connected {value} device_name.
Arguments do_handle_experiment_stopped {value} channel.
Arguments do_connect_to_device {value} port instrument_name.
Arguments do_setup_data_handlers {value}.
Arguments do_start_experiment {value}.
Arguments do_close_experiment {value}.


(** ** Vocabulary for whole runs and whole sessions *)

Section Runs.
Variable value : Type.

Definition is_stop (e : emission value) : bool :=
  match e with
  | emit_experimentStopped _ => true
  | _ => false
  end.

(** The rows a stream of emissions contributes to each of the three
    tables, in the order of the stream. *)
Definition ac_rows_in (es : list (emission value)) : list (pd.row value) :=
  flat_map (fun e =>
    match e with
    | emit_activeACDataReady _ data =>
        match AisACData.timestamp data with
        | Some timestamp => [ac_row timestamp data]
        | None => []
        end
    | _ => []
    end) es.

Definition dc_rows_in (es : list (emission value)) : list (pd.row value) :=
  flat_map (fun e =>
    match e with
    | emit_activeDCDataReady _ data =>
        match AisDCData.timestamp data with
        | Some timestamp => [dc_row timestamp data]
        | None => []
        end
    | _ => []
    end) es.

Definition step_rows_in (es : list (emission value)) : list (pd.row value) :=
  flat_map (fun e =>
    match e with
    | emit_experimentNewElementStarting _ data => [new_element_row data]
    | _ => []
    end) es.

Definition is_nil {A : Type} (l : list A) : bool :=
  match l with
  | [] => true
  | _ :: _ => false
  end.

(** A table with the header [cols] whose rows all have exactly the cells
    of the header, in its order. *)
Definition table_ok (cols : list string) (df : pd.DataFrame value) : Prop :=
  pd.columns df = cols /\ Forall (fun r => map fst r = cols) (pd.rows df).

Definition well_formed (w : world value) : Prop :=
  table_ok ac_columns (ac_data_list w)
  /\ table_ok dc_columns (dc_data_list w)
  /\ table_ok new_element_columns (new_element_list w).

(** The methods that assign or extend the AC or the DC table, and the
    methods that call into the driver. *)
Definition touches_data (m : method_call value) : bool :=
  match m with
  | do_clear_data | do_handle_dc_data _ _ | do_handle_ac_data _ _
  | do_run_experiment _ => true
  | _ => false
  end.

Definition calls_driver (m : method_call value) : bool :=
  match m with
  | do_connect_to_device _ _ | do_upload_experiment _ | do_start_experiment
  | do_setup _ => true
  | _ => false
  end.

End Runs.

Local Open Scope Z_scope.

(** ** Concrete sessions, for the closed statements

    Values are integers here (a reading in micro-units, say); the wrapper
    never looks inside a value. *)

(** The process before the object exists: no attribute is set yet (the
    placeholders are overwritten by [__init__]), nothing printed, nothing
    sent to the driver, nothing connected. *)
Definition unborn : world Z :=
  mkWorld (-1) None (pd.of_columns Z []) (pd.of_columns Z []) (pd.of_columns Z [])
          [] false [] [].

Definition Success : AisErrorCode := mkError 0 "Success".

Definition UploadFailed : AisErrorCode := mkError 7 "Experiment is empty".

(** A driver that finds the instrument and accepts everything. *)
Definition obliging : driver Z :=
  mkDriver (fun _ _ => true) (fun _ _ _ => Success) (fun _ _ => Success).

(** A driver that finds the instrument and refuses every upload. *)
Definition refusing : driver Z :=
  mkDriver (fun _ _ => true) (fun _ _ _ => UploadFailed) (fun _ _ => Success).

Definition fresh_session : world Z :=
  exec (__init__ obliging "COM5" "Plus1894") unborn.

Definition refused_session : world Z :=
  exec (__init__ refusing "COM5" "Plus1894") unborn.

Definition ac_sample : AisACData.t Z :=
  AisACData.mk (Some 1) 10000 50 (-3) 49 (-2) 0 4 0 0 2 100.

Definition ac_unstamped : AisACData.t Z :=
  AisACData.mk None 10000 50 (-3) 49 (-2) 0 4 0 0 2 100.

Definition dc_sample : AisDCData.t Z := AisDCData.mk (Some 1) 3300 10 25.

Definition dc_unstamped : AisDCData.t Z := AisDCData.mk None 3300 10 25.

Definition step_sample : AisExperimentNode.t Z := AisExperimentNode.mk 1 1 0.

(** A driver that finds no instrument. *)
Definition absent : driver Z :=
  mkDriver (fun _ _ => false) (fun _ _ _ => Success) (fun _ _ => Success).

(** The object after a constructor that found no instrument. *)
Definition orphan_session : world Z :=
  exec (__init__ absent "COM5" "Plus1894") unborn.

(** A constant-current run of the kind the example script makes, with one
    step announced and one sample delivered, read out and cleared twice. *)
Definition example_calls : list (method_call Z) :=
  [ do_setup (call_setup_constant_current 100 10 10);
    do_run_experiment [ emit_experimentNewElementStarting 0 step_sample;
                        emit_activeDCDataReady 0 dc_sample;
                        emit_experimentStopped 0 ];
    do_get_data;
    do_clear_data;
    do_clear_data ].

(** The session after these calls. *)
Definition example_final : world Z :=
  Eval vm_compute in
    match perform_all obliging example_calls fresh_session with
    | Some w => w
    | None => unborn
    end.

(** Calls that neither touch the data tables nor reach the driver. *)
Definition idle_calls : list (method_call Z) :=
  [ do_get_data;
    do_handle_new_element 0 step_sample;
    do_handle_experiment_stopped 0;
    do_close_experiment ].

Definition idle_final : world Z :=
  Eval vm_compute in
    match perform_all obliging idle_calls example_final with
    | Some w => w
    | None => unborn
    end.

(** What the driver emits in a run of the example: a step announcement, a
    DC sample, an AC sample without a timestamp. *)
Definition example_stream : list (emission Z) :=
  [ emit_experimentNewElementStarting 0 step_sample;
    emit_activeDCDataReady 0 dc_sample;
    emit_activeACDataReady 0 ac_unstamped ].

(** * Properties *)

(** Runs a computation on the world it is applied to.  With the world
    given by its components every assignment is carried out; what is left
    are the tests the components do not decide. *)
Ltac run :=
  lazy beta iota zeta delta
    [exec result __init__ close_experiment __del__ get_data clear_data
     handle_dc_data handle_ac_data handle_new_element on_device_connected
     handle_experiment_stopped connect_to_device setup_data_handlers
     upload_experiment start_experiment sleep set_ac_data_list
     set_dc_data_list set_new_element_list set_channel set_handler connect
     app_quit print call_driver bind ret raise get modify fst snd channel
     handler ac_data_list dc_data_list new_element_list connections
     quit_requested stdout driver_log] in *.

(** Opens one test that is left: on the handler or a timestamp being
    [None], on the answer of the driver, on a table being empty. *)
Ltac open_case :=
  match goal with
  | |- context [match ?o with Some _ => _ | None => _ end] => destruct o eqn:?
  | |- context [if ?b then _ else _] => destruct b eqn:?
  end.

Ltac run_cases := run; repeat (open_case; run).

(** The components of a world, named. *)
Ltac components w :=
  destruct w as [channel_ handler_ ac_ dc_ steps_ connections_ quit_ stdout_ log_].

(** A preset call, down to its three steps on the experiment it builds. *)
Ltac open_preset :=
  cbv beta iota zeta delta
    [invoke setup_EIS_potentiostatic setup_cyclic_voltammetry
     setup_constant_current setup_constant_potential setup_constant_power
     setup_constant_resistance setup_DC_current_sweep setup_DC_potential_sweep
     setup_diff_pulse_voltammetry setup_normal_pulse_voltammetry
     setup_square_wave setup_EIS_Galvanostatic setup_OCP
     new_experiment appendElement app].

Section Frames.
Variable value : Type.

Lemma empty_of_columns (cols : list string) :
  pd.empty (pd.of_columns value cols) = true.
Proof. unfold pd.empty; cbn. now destruct cols. Qed.

Lemma empty_iff_no_rows (df : pd.DataFrame value) :
  pd.columns df <> [] -> (pd.empty df = true <-> pd.rows df = []).
Proof.
  unfold pd.empty. destruct (pd.columns df); [congruence|].
  destruct (pd.rows df); intuition congruence.
Qed.

Lemma concat_row_not_empty (a : pd.DataFrame value) (d : pd.row value) :
  d <> [] -> pd.empty (pd.concat a (pd.of_dict d)) = false.
Proof.
  intros Hd. unfold pd.empty, pd.concat, pd.of_dict; cbn.
  destruct (pd.columns a) as [|c cs] eqn:Hc; cbn.
  - destruct d as [|[k v] d']; [congruence|]. cbn.
    now destruct (pd.rows a).
  - now destruct (pd.rows a).
Qed.

End Frames.

Section Callbacks.
Variable value : Type.

Lemma handle_ac_data_stamped (w : world value) ch (d : AisACData.t value) t :
  AisACData.timestamp d = Some t ->
  handle_ac_data ch d w
  = set_ac_data_list (pd.concat (ac_data_list w) (pd.of_dict (ac_row t d))) w.
Proof. intros H. unfold handle_ac_data. rewrite H. reflexivity. Qed.

Lemma handle_ac_data_unstamped (w : world value) ch (d : AisACData.t value) :
  AisACData.timestamp d = None -> handle_ac_data ch d w = (Returned tt, w).
Proof. intros H. unfold handle_ac_data. rewrite H. reflexivity. Qed.

Lemma handle_dc_data_stamped (w : world value) ch (d : AisDCData.t value) t :
  AisDCData.timestamp d = Some t ->
  handle_dc_data ch d w
  = set_dc_data_list (pd.concat (dc_data_list w) (pd.of_dict (dc_row t d))) w.
Proof. intros H. unfold handle_dc_data. rewrite H. reflexivity. Qed.

Lemma handle_dc_data_unstamped (w : world value) ch (d : AisDCData.t value) :
  AisDCData.timestamp d = None -> handle_dc_data ch d w = (Returned tt, w).
Proof. intros H. unfold handle_dc_data. rewrite H. reflexivity. Qed.

(** On a constructed session an emission runs exactly the slot of its
    signal, once. *)
Lemma deliver_wired (e : emission value) (w : world value) :
  connections w = wiring ->
  deliver e w = exec (call_slot (match e with
                                 | emit_newDeviceConnected _ => self_on_device_connected
                                 | emit_activeDCDataReady _ _ => self_handle_dc_data
                                 | emit_activeACDataReady _ _ => self_handle_ac_data
                                 | emit_experimentNewElementStarting _ _ => self_handle_new_element
                                 | emit_experimentStopped _ => self_handle_experiment_stopped
                                 end) e) w.
Proof.
  intros H. unfold deliver. rewrite H. destruct e; reflexivity.
Qed.

Lemma deliver_ac_frame (w : world value) ch (d : AisACData.t value) :
  connections w = wiring ->
  let w' := deliver (emit_activeACDataReady ch d) w in
  w' = exec (handle_ac_data ch d) w
  /\ connections w' = wiring /\ quit_requested w' = quit_requested w
  /\ dc_data_list w' = dc_data_list w /\ new_element_list w' = new_element_list w
  /\ channel w' = channel w /\ handler w' = handler w
  /\ stdout w' = stdout w /\ driver_log w' = driver_log w.
Proof.
  intros H w'. subst w'. rewrite deliver_wired by exact H. cbn [call_slot].
  unfold exec, handle_ac_data.
  destruct (AisACData.timestamp d); cbn; auto 10.
Qed.

Lemma deliver_dc_frame (w : world value) ch (d : AisDCData.t value) :
  connections w = wiring ->
  let w' := deliver (emit_activeDCDataReady ch d) w in
  w' = exec (handle_dc_data ch d) w
  /\ connections w' = wiring /\ quit_requested w' = quit_requested w
  /\ ac_data_list w' = ac_data_list w /\ new_element_list w' = new_element_list w
  /\ channel w' = channel w /\ handler w' = handler w
  /\ stdout w' = stdout w /\ driver_log w' = driver_log w.
Proof.
  intros H w'. subst w'. rewrite deliver_wired by exact H. cbn [call_slot].
  unfold exec, handle_dc_data.
  destruct (AisDCData.timestamp d); cbn; auto 10.
Qed.

Lemma deliver_stopped (w : world value) ch :
  connections w = wiring ->
  let w' := deliver (emit_experimentStopped ch) w in
  quit_requested w' = true
  /\ ac_data_list w' = ac_data_list w /\ dc_data_list w' = dc_data_list w
  /\ new_element_list w' = new_element_list w
  /\ channel w' = channel w /\ handler w' = handler w
  /\ connections w' = wiring /\ driver_log w' = driver_log w.
Proof.
  intros H w'. subst w'. rewrite deliver_wired by exact H. cbn. auto 10.
Qed.

Lemma rows_after_ac (w : world value) ch (d : AisACData.t value) :
  pd.rows (ac_data_list (exec (handle_ac_data ch d) w))
  = pd.rows (ac_data_list w) ++ ac_rows_of [(ch, d)].
Proof.
  unfold exec, handle_ac_data, ac_rows_of. cbn.
  destruct (AisACData.timestamp d); cbn; [reflexivity|].
  now rewrite app_nil_r.
Qed.

Lemma rows_after_dc (w : world value) ch (d : AisDCData.t value) :
  pd.rows (dc_data_list (exec (handle_dc_data ch d) w))
  = pd.rows (dc_data_list w) ++ dc_rows_of [(ch, d)].
Proof.
  unfold exec, handle_dc_data, dc_rows_of. cbn.
  destruct (AisDCData.timestamp d); cbn; [reflexivity|].
  now rewrite app_nil_r.
Qed.

Lemma ac_rows_of_cons cd (cbs : list (Z * AisACData.t value)) :
  ac_rows_of (cd :: cbs) = ac_rows_of [cd] ++ ac_rows_of cbs.
Proof. unfold ac_rows_of; cbn [flat_map]. now rewrite app_nil_r. Qed.

Lemma length_ac_rows_of (cbs : list (Z * AisACData.t value)) :
  List.length (ac_rows_of cbs) = List.length (filter (@ac_stamped value) cbs).
Proof.
  induction cbs as [|cd cbs IH]; [reflexivity|].
  rewrite ac_rows_of_cons, length_app, IH. cbn [filter].
  unfold ac_rows_of, ac_stamped. cbn [flat_map].
  destruct (AisACData.timestamp (snd cd)); reflexivity.
Qed.

Lemma dc_rows_of_stamped (cbs : list (Z * AisDCData.t value)) :
  existsb (@dc_stamped value) cbs = true -> dc_rows_of cbs <> [].
Proof.
  induction cbs as [|cd cbs IH]; cbn [existsb]; [discriminate|].
  unfold dc_rows_of, dc_stamped in *. cbn [flat_map].
  destruct (AisDCData.timestamp (snd cd)); cbn; [discriminate|exact IH].
Qed.

(** A run in which the driver emits AC samples and then the stop. *)
Lemma event_loop_ac_run (cbs : list (Z * AisACData.t value)) ch :
  forall w : world value,
    connections w = wiring -> quit_requested w = false ->
    exists w',
      event_loop (ac_emissions cbs ++ [emit_experimentStopped ch]) w = Some (w', [])
      /\ pd.rows (ac_data_list w') = pd.rows (ac_data_list w) ++ ac_rows_of cbs
      /\ dc_data_list w' = dc_data_list w
      /\ new_element_list w' = new_element_list w.
Proof.
  induction cbs as [|[c d] cbs IH]; intros w Hc Hq.
  - cbn [ac_emissions map app event_loop].
    destruct (@deliver_stopped w ch Hc) as (Hq' & Ha & Hd & Hn & _).
    rewrite Hq'. eexists; split; [reflexivity|].
    rewrite Ha. cbn. now rewrite app_nil_r.
  - cbn [ac_emissions map app event_loop fst snd].
    destruct (@deliver_ac_frame w c d Hc) as (He & Hc' & Hq' & Hd & Hn & _).
    rewrite Hq', Hq.
    destruct (IH _ Hc' (eq_trans Hq' Hq)) as (w' & Hrun & Hrows & Hd' & Hn').
    exists w'. split; [exact Hrun|].
    rewrite Hrows, Hd', Hn', Hd, Hn, He, rows_after_ac.
    rewrite <- app_assoc, (ac_rows_of_cons (c, d) cbs). auto.
Qed.

Lemma dc_rows_of_cons cd (cbs : list (Z * AisDCData.t value)) :
  dc_rows_of (cd :: cbs) = dc_rows_of [cd] ++ dc_rows_of cbs.
Proof. unfold dc_rows_of; cbn [flat_map]. now rewrite app_nil_r. Qed.

Lemma empty_after_dc (w : world value) ch (d : AisDCData.t value) :
  (pd.empty (dc_data_list w) = false \/ dc_rows_of [(ch, d)] <> []) ->
  pd.empty (dc_data_list (exec (handle_dc_data ch d) w)) = false.
Proof.
  unfold exec, handle_dc_data, dc_rows_of. cbn.
  destruct (AisDCData.timestamp d) as [t|]; cbn.
  - intros _. apply concat_row_not_empty. discriminate.
  - intros [H|H]; [exact H | congruence].
Qed.

Lemma event_loop_dc_run (cbs : list (Z * AisDCData.t value)) ch :
  forall w : world value,
    connections w = wiring -> quit_requested w = false ->
    exists w',
      event_loop (dc_emissions cbs ++ [emit_experimentStopped ch]) w = Some (w', [])
      /\ pd.rows (dc_data_list w') = pd.rows (dc_data_list w) ++ dc_rows_of cbs
      /\ (pd.empty (dc_data_list w) = false \/ dc_rows_of cbs <> [] ->
          pd.empty (dc_data_list w') = false)
      /\ ac_data_list w' = ac_data_list w
      /\ new_element_list w' = new_element_list w.
Proof.
  induction cbs as [|[c d] cbs IH]; intros w Hc Hq.
  - cbn [dc_emissions map app event_loop].
    destruct (@deliver_stopped w ch Hc) as (Hq' & Ha & Hd & Hn & _).
    rewrite Hq'. eexists; split; [reflexivity|].
    rewrite Hd. cbn. rewrite app_nil_r.
    split; [reflexivity | split; [|auto]].
    intros [H|H]; [exact H | congruence].
  - cbn [dc_emissions map app event_loop fst snd].
    destruct (@deliver_dc_frame w c d Hc) as (He & Hc' & Hq' & Ha & Hn & _).
    rewrite Hq', Hq.
    destruct (IH _ Hc' (eq_trans Hq' Hq)) as (w' & Hrun & Hrows & Hne & Ha' & Hn').
    exists w'. split; [exact Hrun|].
    rewrite Hrows, Ha', Hn', Ha, Hn. rewrite He in Hne |- *.
    rewrite rows_after_dc, <- app_assoc, (dc_rows_of_cons (c, d) cbs).
    split; [reflexivity | split; [|auto]].
    intros H. apply Hne.
    destruct (dc_rows_of cbs) as [|r rs] eqn:Hr; [left | right; discriminate].
    apply empty_after_dc.
    destruct H as [H|H]; [left; exact H | right].
    now rewrite app_nil_r in H.
Qed.
End Callbacks.

Section Session.
Variable value : Type.
Variable drv : driver value.

Lemma later_refl (w : world value) : later w w.
Proof.
  unfold later. split; [reflexivity|].
  split; exists []; rewrite app_nil_r; auto.
Qed.

Lemma later_trans (w1 w2 w3 : world value) :
  later w1 w2 -> later w2 w3 -> later w1 w3.
Proof.
  intros (Hc & (l & Hl & Hf) & (r & Hr)) (Hc' & (l' & Hl' & Hf') & (r' & Hr')).
  unfold later. split; [congruence|]. split.
  - exists (l ++ l'). rewrite Hl', Hl, app_assoc. split; [reflexivity|].
    apply Forall_app. split; [exact Hf|]. now rewrite <- Hc.
  - exists (r ++ r'). now rewrite Hr', Hr, app_assoc.
Qed.

(** Closes [later w w'] once [w'] is an explicit record over [w]. *)
Ltac later_by_computation :=
  unfold later;
  lazy beta iota zeta delta
    [channel driver_log new_element_list pd.rows pd.concat pd.of_dict
     pd.of_columns fst snd];
  split; [reflexivity|];
  split;
  [ eexists; split;
    [ repeat rewrite <- app_assoc;
      first [ reflexivity | symmetry; apply app_nil_r ]
    | repeat constructor ]
  | eexists; first [ reflexivity | symmetry; apply app_nil_r ] ].

Lemma call_slot_later (f : slot) (e : emission value) (w : world value) :
  later w (exec (call_slot f e) w).
Proof.
  components w. destruct f, e; cbn [call_slot]; run_cases; later_by_computation.
Qed.

Lemma deliver_later (e : emission value) (w : world value) :
  later w (deliver e w).
Proof.
  unfold deliver. generalize (connections w) as cs. intros cs. revert w.
  induction cs as [|c cs IH]; intros w; cbn [fold_left].
  - apply later_refl.
  - eapply later_trans; [|apply IH].
    destruct (signal_eqb (fst c) (signal_of e));
      [apply call_slot_later | apply later_refl].
Qed.

Lemma event_loop_later (pending : list (emission value)) :
  forall w w' rest, event_loop pending w = Some (w', rest) -> later w w'.
Proof.
  induction pending as [|e pending IH]; intros w w' rest; cbn [event_loop].
  - discriminate.
  - destruct (quit_requested (deliver e w)) eqn:Hq.
    + intros [= <- _]. apply deliver_later.
    + intros H. eapply later_trans; [apply deliver_later | eapply IH, H].
Qed.

Lemma run_experiment_later pending (w w' : world value) rest :
  run_experiment pending w = Some (w', rest) -> later w w'.
Proof.
  unfold run_experiment, exec_. intros H.
  eapply later_trans; [|eapply event_loop_later, H].
  components w. later_by_computation.
Qed.

Lemma upload_experiment_later x (w : world value) :
  later w (exec (upload_experiment drv x) w).
Proof.
  components w. run_cases; later_by_computation.
Qed.

Lemma start_experiment_later (w : world value) :
  later w (exec (start_experiment drv) w).
Proof.
  components w. run_cases; later_by_computation.
Qed.
(** What every preset does once its experiment [x] is built, on a session
    that has a handler. *)
Lemma preset_runs header (x : AisExperiment value) (w : world value) :
  handler w <> None ->
  let eu := upload_result drv (driver_log w) (channel w) x in
  let es := start_result drv
              (driver_log w ++ [uploadExperimentToChannel (channel w) x]) (channel w) in
  (print header ;; upload_experiment drv x ;; start_experiment drv) w
  = (Returned tt,
     mkWorld (channel w) (handler w) (ac_data_list w) (dc_data_list w)
       (new_element_list w) (connections w) (quit_requested w)
       (stdout w ++ [header; "Uploading experiment"]
          ++ (if nonzero eu then [message eu] else [])
          ++ ["Setting potentiostat in start experiment modus"]
          ++ (if nonzero es then [message es] else []))
       (driver_log w ++ [uploadExperimentToChannel (channel w) x;
                         startUploadedExperiment (channel w)])).
Proof.
  intros Hh eu es. subst eu es. components w.
  run_cases; try congruence; repeat rewrite <- app_assoc; reflexivity.
Qed.

Lemma preset_later header (x : AisExperiment value) (w : world value) :
  later w (exec (print header ;; upload_experiment drv x ;; start_experiment drv) w).
Proof.
  destruct (handler w) as [h|] eqn:Hw.
  - unfold exec. rewrite preset_runs by congruence.
    components w. later_by_computation.
  - components w. run_cases; try discriminate; later_by_computation.
Qed.

Lemma invoke_later (c : setup_call value) (w : world value) :
  later w (exec (invoke drv c) w).
Proof. destruct c; open_preset; apply preset_later. Qed.

Lemma perform_later (m : method_call value) (w w' : world value) :
  perform drv m w = Some w' -> later w w'.
Proof.
  destruct m; cbn [perform].
  - intros [= <-]. components w. run_cases; later_by_computation.
  - intros [= <-]. components w. run. later_by_computation.
  - intros [= <-]. apply (call_slot_later self_handle_dc_data (emit_activeDCDataReady channel0 data)).
  - intros [= <-]. apply (call_slot_later self_handle_ac_data (emit_activeACDataReady channel0 data)).
  - intros [= <-]. apply (call_slot_later self_handle_new_element (emit_experimentNewElementStarting channel0 data)).
  - intros [= <-]. apply (call_slot_later self_on_device_connected (emit_newDeviceConnected device_name)).
  - intros [= <-]. apply (call_slot_later self_handle_experiment_stopped (emit_experimentStopped channel0)).
  - intros [= <-]. components w. run. later_by_computation.
  - intros [= <-]. components w. run_cases; later_by_computation.
  - intros [= <-]. apply upload_experiment_later.
  - intros [= <-]. apply start_experiment_later.
  - destruct (run_experiment pending w) as [[w1 rest]|] eqn:Hr; cbn; [|discriminate].
    intros [= <-]. eapply run_experiment_later, Hr.
  - intros [= <-]. components w. run. later_by_computation.
  - intros [= <-]. apply invoke_later.
Qed.

Lemma perform_all_later (ms : list (method_call value)) :
  forall w w' : world value, perform_all drv ms w = Some w' -> later w w'.
Proof.
  induction ms as [|m ms IH]; intros w w'; cbn [perform_all].
  - intros [= <-]. apply later_refl.
  - destruct (perform drv m w) as [w1|] eqn:Hm; [|discriminate].
    intros H. eapply later_trans; [eapply perform_later, Hm | eapply IH, H].
Qed.

(** [__init__] whatever the driver answers and whatever came before. *)
Lemma init_channel_and_log port instrument_name (w0 : world value) :
  let w := exec (__init__ drv port instrument_name) w0 in
  channel w = 0
  /\ driver_log w = driver_log w0 ++ [connectToDeviceOnComPort port;
                                      getInstrumentHandler instrument_name]
  /\ pd.rows (ac_data_list w) = [] /\ pd.rows (dc_data_list w) = []
  /\ pd.rows (new_element_list w) = [].
Proof.
  intros w. subst w. components w0. run_cases; rewrite <- app_assoc; auto.
Qed.

Lemma init_constructed port instrument_name (w0 : world value) :
  connections w0 = [] ->
  instrument_found drv (driver_log w0 ++ [connectToDeviceOnComPort port])
    instrument_name = true ->
  result (__init__ drv port instrument_name) w0 = Returned tt
  /\ constructed (exec (__init__ drv port instrument_name) w0).
Proof.
  intros Hc Hf. unfold constructed. components w0. run. rewrite Hf. run.
  subst. repeat split; congruence.
Qed.
End Session.

(** * The claims *)

Section Claims.
Variable value : Type.
Variable drv : driver value.

(** What [get_data] returns, in every world: [None] for the AC table exactly
    when it is empty; [None] for the DC table only in the second branch,
    which is reached when the AC table is not empty. *)
Lemma get_data_returns (w : world value) :
  result (@get_data value) w
  = Returned (if pd.empty (ac_data_list w) then (None, Some (dc_data_list w))
              else if pd.empty (dc_data_list w) then (Some (ac_data_list w), None)
              else (Some (ac_data_list w), Some (dc_data_list w))).
Proof.
  components w. run_cases; reflexivity.
Qed.

(** C2, as amended.  On a constructed session, a run in which the driver
    delivers a sequence of AC callbacks and then the stop signal returns with
    every emission consumed; the AC table is the table before the run
    followed by one row per delivered callback whose timestamp is not [None],
    in delivery order, so the number of rows added is the number of such
    callbacks; and each callback that carries a timestamp appends its row at
    the end of the rows accumulated so far. *)
Theorem ac_run_appends_stamped_rows
  (w : world value) (cbs : list (Z * AisACData.t value)) (ch : Z) :
  constructed w ->
  exists w',
    run_experiment (ac_emissions cbs ++ [emit_experimentStopped ch]) w = Some (w', [])
    /\ pd.rows (ac_data_list w') = pd.rows (ac_data_list w) ++ ac_rows_of cbs
    /\ List.length (pd.rows (ac_data_list w'))
       = (List.length (pd.rows (ac_data_list w))
          + List.length (filter (@ac_stamped value) cbs))%nat
    /\ (forall c d t, AisACData.timestamp d = Some t ->
          pd.rows (ac_data_list (exec (handle_ac_data c d) w))
          = pd.rows (ac_data_list w) ++ [ac_row t d]).
Proof.
  intros [_ Hc]. unfold run_experiment, exec_.
  edestruct (@event_loop_ac_run value cbs ch) as (w' & Hrun & Hrows & _);
    [| | exists w'; split; [exact Hrun|]].
  - exact Hc.
  - reflexivity.
  - cbn [ac_data_list] in Hrows. split; [exact Hrows|]. split.
    + now rewrite Hrows, length_app, length_ac_rows_of.
    + intros c d t Ht. unfold exec. now rewrite (handle_ac_data_stamped _ _ _ Ht).
Qed.

(** C5.  [clear_data] returns and leaves the AC table and the DC table
    empty (a header, no row), whatever the session state; [get_data] called
    next returns no data for either table: [None] for the AC table and the
    empty DC table. *)
Theorem clear_data_then_get_data (w : world value) :
  let w' := exec (@clear_data value) w in
  result (@clear_data value) w = Returned tt
  /\ ac_data_list w' = pd.of_columns value ac_columns
  /\ dc_data_list w' = pd.of_columns value dc_columns
  /\ pd.empty (ac_data_list w') = true /\ pd.empty (dc_data_list w') = true
  /\ result (@get_data value) w' = Returned (None, Some (pd.of_columns value dc_columns))
  /\ (forall a d, result (@get_data value) w' = Returned (a, d) ->
        shows_no_data a = true /\ shows_no_data d = true).
Proof.
  intros w'. subst w'.
  repeat match goal with |- _ /\ _ => split end; try reflexivity.
  intros a d. rewrite get_data_returns. components w. run. cbn. intros [= <- <-].
  split; reflexivity.
Qed.

(** C8.  A DC or an AC callback whose payload has timestamp [None] returns
    without raising and leaves the whole world as it was: no row is added to
    either table, nothing else changes. *)
Theorem unstamped_sample_is_dropped
  (w : world value) (ch : Z) (dc : AisDCData.t value) (ac : AisACData.t value) :
  AisDCData.timestamp dc = None ->
  AisACData.timestamp ac = None ->
  handle_dc_data ch dc w = (Returned tt, w)
  /\ handle_ac_data ch ac w = (Returned tt, w)
  /\ (constructed w ->
      deliver (emit_activeDCDataReady ch dc) w = w
      /\ deliver (emit_activeACDataReady ch ac) w = w).
Proof.
  intros Hdc Hac. split; [|split].
  - now apply handle_dc_data_unstamped.
  - now apply handle_ac_data_unstamped.
  - intros [_ Hc]. rewrite !deliver_wired by exact Hc. cbn [call_slot].
    unfold exec.
    now rewrite (handle_dc_data_unstamped _ _ _ Hdc), (handle_ac_data_unstamped _ _ _ Hac).
Qed.

(** C4, as amended.  On a constructed session, a run in which the driver
    delivers only DC callbacks and then the stop signal returns and leaves
    the AC table as it was, so an empty AC table stays empty; the DC table is
    not empty after the run when at least one of the delivered samples has a
    timestamp that is not [None].  The DC handler never modifies the AC table
    and the AC handler never modifies the DC table. *)
Theorem dc_run_leaves_ac_table
  (w : world value) (cbs : list (Z * AisDCData.t value)) (ch : Z) :
  constructed w ->
  exists w',
    run_experiment (dc_emissions cbs ++ [emit_experimentStopped ch]) w = Some (w', [])
    /\ ac_data_list w' = ac_data_list w
    /\ (pd.empty (ac_data_list w) = true -> pd.empty (ac_data_list w') = true)
    /\ (existsb (@dc_stamped value) cbs = true -> pd.empty (dc_data_list w') = false)
    /\ (forall c d, ac_data_list (exec (handle_dc_data c d) w) = ac_data_list w)
    /\ (forall c d, dc_data_list (exec (handle_ac_data c d) w) = dc_data_list w).
Proof.
  intros [_ Hc]. unfold run_experiment, exec_.
  edestruct (@event_loop_dc_run value cbs ch) as (w' & Hrun & _ & Hne & Ha & _);
    [| | exists w'; split; [exact Hrun|]].
  - exact Hc.
  - reflexivity.
  - cbn [ac_data_list dc_data_list] in Ha, Hne.
    split; [exact Ha|]. split; [now rewrite Ha|]. split; [|split].
    + intros Hs. apply Hne. right. now apply dc_rows_of_stamped.
    + intros c d. unfold exec, handle_dc_data.
      destruct (AisDCData.timestamp d); reflexivity.
    + intros c d. unfold exec, handle_ac_data.
      destruct (AisACData.timestamp d); reflexivity.
Qed.

(** C6, as amended.  On a session that has a handler, when the driver
    answers an upload (a start) with a nonzero error, [upload_experiment]
    ([start_experiment]) prints the driver's message to standard output,
    calls the driver exactly once (no retry, no recovery), changes nothing
    else and returns normally: the error is neither raised nor returned to
    the caller. *)
Theorem driver_error_is_printed (x : AisExperiment value) (w : world value) :
  handler w <> None ->
  let eu := upload_result drv (driver_log w) (channel w) x in
  let es := start_result drv (driver_log w) (channel w) in
  (nonzero eu = true ->
   upload_experiment drv x w
   = (Returned tt,
      mkWorld (channel w) (handler w) (ac_data_list w) (dc_data_list w)
        (new_element_list w) (connections w) (quit_requested w)
        (stdout w ++ ["Uploading experiment"; message eu])
        (driver_log w ++ [uploadExperimentToChannel (channel w) x])))
  /\ (nonzero es = true ->
      start_experiment drv w
      = (Returned tt,
         mkWorld (channel w) (handler w) (ac_data_list w) (dc_data_list w)
           (new_element_list w) (connections w) (quit_requested w)
           (stdout w ++ ["Setting potentiostat in start experiment modus"; message es])
           (driver_log w ++ [startUploadedExperiment (channel w)]))).
Proof.
  intros Hh eu es. subst eu es.
  components w. split; intros He; run_cases; try congruence;
    rewrite <- app_assoc; reflexivity.
Qed.

(** C7.  [__init__] sets the channel to 0; after any sequence of method
    calls on the object the channel is still 0, and every upload and every
    start the wrapper has sent to the driver names channel 0. *)
Theorem channel_is_always_zero
  port instrument_name (w0 : world value) (ms : list (method_call value))
  (w : world value) :
  perform_all drv ms (exec (__init__ drv port instrument_name) w0) = Some w ->
  channel (exec (__init__ drv port instrument_name) w0) = 0
  /\ channel w = 0
  /\ exists l, driver_log w = driver_log w0 ++ l /\ Forall (targets 0) l.
Proof.
  intros H.
  destruct (init_channel_and_log drv port instrument_name w0) as (Hc & Hl & _).
  destruct (perform_all_later _ _ _ H) as (Hc' & (l & Hl' & Hf) & _).
  split; [exact Hc|]. split; [congruence|].
  exists ([connectToDeviceOnComPort port; getInstrumentHandler instrument_name] ++ l).
  rewrite Hl', Hl, <- app_assoc. split; [reflexivity|].
  apply Forall_app. split.
  - repeat constructor.
  - now rewrite <- Hc.
Qed.


(** C10.  On a session that has a handler, every experiment-setup call
    returns normally, with the attributes of the object unchanged, after one
    upload and one start on the channel; when the driver answers the upload
    with a nonzero error, its message is printed between the two and the
    start is sent all the same. *)
Theorem failed_upload_still_starts (c : setup_call value) (w : world value) :
  handler w <> None ->
  exists header x,
    let eu := upload_result drv (driver_log w) (channel w) x in
    let es := start_result drv
                (driver_log w ++ [uploadExperimentToChannel (channel w) x]) (channel w) in
    result (invoke drv c) w = Returned tt
    /\ same_attributes w (exec (invoke drv c) w)
    /\ driver_log (exec (invoke drv c) w)
       = driver_log w ++ [uploadExperimentToChannel (channel w) x;
                          startUploadedExperiment (channel w)]
    /\ (nonzero eu = true ->
        stdout (exec (invoke drv c) w)
        = stdout w ++ [header; "Uploading experiment"; message eu;
                       "Setting potentiostat in start experiment modus"]
                   ++ (if nonzero es then [message es] else [])).
Proof.
  intros Hh.
  destruct c; open_preset; unfold exec, result, same_attributes;
    do 2 eexists; rewrite preset_runs by exact Hh;
    cbn [fst snd channel handler ac_data_list dc_data_list
         new_element_list connections quit_requested stdout driver_log];
    (split; [reflexivity|]); (split; [repeat split|]);
    (split; [reflexivity|]);
    intros He; rewrite He; reflexivity.
Qed.
End Claims.

(** * Closed statements: evaluations, counterexamples, witnesses *)

(** C1.  The claim holds for the AC table and fails for the DC table: on
    the session as [__init__] leaves it, where both tables are empty,
    [get_data] returns [None] for the AC table and the empty DC frame, not
    [None], for the DC table.  (It does return: nothing is raised.) *)
Theorem get_data_on_empty_session :
  pd.empty (ac_data_list fresh_session) = true
  /\ pd.empty (dc_data_list fresh_session) = true
  /\ result (@get_data Z) fresh_session
     = Returned (None, Some (pd.of_columns Z dc_columns)).
Proof. repeat split. Qed.

(** C2 as stated fails: one AC callback delivered in a run that starts on an
    empty AC table, and no row in the table after the run, because the
    payload has no timestamp. *)
Lemma ac_run_unstamped_adds_no_row :
  exists w',
    run_experiment (ac_emissions [(0, ac_unstamped)] ++ [emit_experimentStopped 0])
                   fresh_session = Some (w', [])
    /\ pd.rows (ac_data_list fresh_session) = []
    /\ List.length (pd.rows (ac_data_list w')) <> List.length [(0, ac_unstamped)].
Proof.
  eexists. split; [reflexivity|]. split; [reflexivity|]. cbn. discriminate.
Qed.

Lemma ac_run_appends_stamped_rows_witness :
  constructed fresh_session
  /\ exists w',
       run_experiment
         (ac_emissions [(0, ac_unstamped); (0, ac_sample)] ++ [emit_experimentStopped 0])
         fresh_session = Some (w', [])
       /\ pd.rows (ac_data_list w') = [ac_row 1 ac_sample].
Proof.
  assert (H : constructed fresh_session)
    by (split; [cbv; discriminate | reflexivity]).
  split; [exact H|].
  destruct (@ac_run_appends_stamped_rows Z fresh_session
              [(0, ac_unstamped); (0, ac_sample)] 0 H)
    as (w' & Hrun & Hrows & _).
  exists w'. split; [exact Hrun | exact Hrows].
Defined.



(** C4 as stated fails: a run that delivers one DC sample and nothing else
    leaves the DC table empty, because the sample has no timestamp. *)
Lemma dc_run_unstamped_leaves_dc_empty :
  exists w',
    run_experiment (dc_emissions [(0, dc_unstamped)] ++ [emit_experimentStopped 0])
                   fresh_session = Some (w', [])
    /\ pd.empty (ac_data_list w') = true
    /\ pd.empty (dc_data_list w') = true.
Proof. eexists. repeat split. Qed.

Lemma dc_run_leaves_ac_table_witness :
  constructed fresh_session
  /\ exists w',
       run_experiment
         (dc_emissions [(0, dc_unstamped); (0, dc_sample)] ++ [emit_experimentStopped 0])
         fresh_session = Some (w', [])
       /\ pd.empty (ac_data_list w') = true
       /\ pd.empty (dc_data_list w') = false.
Proof.
  assert (H : constructed fresh_session)
    by (split; [cbv; discriminate | reflexivity]).
  split; [exact H|].
  destruct (@dc_run_leaves_ac_table Z fresh_session
              [(0, dc_unstamped); (0, dc_sample)] 0 H)
    as (w' & Hrun & _ & Ha & Hd & _).
  exists w'. split; [exact Hrun|]. split; [apply Ha | apply Hd]; reflexivity.
Defined.

(** C6 as stated fails: the driver refuses the upload of a constant-current
    experiment; [upload_experiment] returns normally, and so does the whole
    preset, which goes on to start the experiment that was not uploaded. *)
Lemma refused_upload_is_not_propagated :
  let x := [(AisConstantCurrentElement 100 10 10, None)] in
  nonzero (upload_result refusing (driver_log refused_session) 0 x) = true
  /\ result (upload_experiment refusing x) refused_session = Returned tt
  /\ result (invoke refusing (call_setup_constant_current 100 10 10)) refused_session
     = Returned tt
  /\ driver_log (exec (invoke refusing (call_setup_constant_current 100 10 10))
                      refused_session)
     = driver_log refused_session ++ [uploadExperimentToChannel 0 x;
                                      startUploadedExperiment 0].
Proof. repeat split. Qed.

Lemma driver_error_is_printed_witness :
  let x := [(AisConstantCurrentElement 100 10 10, None)] in
  handler refused_session <> None
  /\ nonzero (upload_result refusing (driver_log refused_session) 0 x) = true
  /\ stdout (exec (upload_experiment refusing x) refused_session)
     = ["Uploading experiment"; "Experiment is empty"].
Proof.
  intros x.
  assert (Hh : handler refused_session <> None) by (cbv; discriminate).
  split; [exact Hh|]. split; [reflexivity|].
  unfold exec.
  rewrite (proj1 (@driver_error_is_printed Z refusing x refused_session Hh) eq_refl).
  reflexivity.
Defined.

Lemma channel_is_always_zero_witness :
  channel unborn = -1
  /\ perform_all obliging example_calls
       (exec (__init__ obliging "COM5" "Plus1894") unborn) = Some example_final
  /\ channel example_final = 0
  /\ exists l, driver_log example_final = driver_log unborn ++ l
               /\ Forall (targets 0) l.
Proof.
  assert (H : perform_all obliging example_calls
                (exec (__init__ obliging "COM5" "Plus1894") unborn)
              = Some example_final) by (vm_compute; reflexivity).
  split; [reflexivity|]. split; [exact H|].
  exact (proj2 (@channel_is_always_zero Z obliging "COM5" "Plus1894" unborn
                  example_calls example_final H)).
Defined.

Lemma unstamped_sample_is_dropped_witness :
  AisDCData.timestamp dc_unstamped = None
  /\ AisACData.timestamp ac_unstamped = None
  /\ handle_dc_data 0 dc_unstamped fresh_session = (Returned tt, fresh_session)
  /\ handle_ac_data 0 ac_unstamped fresh_session = (Returned tt, fresh_session).
Proof.
  split; [reflexivity|]. split; [reflexivity|].
  destruct (@unstamped_sample_is_dropped Z fresh_session 0 dc_unstamped ac_unstamped
              eq_refl eq_refl) as (Hd & Ha & _).
  split; [exact Hd | exact Ha].
Defined.


Lemma failed_upload_still_starts_witness :
  handler refused_session <> None
  /\ exists header x,
       result (invoke refusing (call_setup_EIS_potentiostatic 10000 1000 10 0 100 1))
              refused_session = Returned tt
       /\ driver_log (exec (invoke refusing (call_setup_EIS_potentiostatic 10000 1000 10 0 100 1))
                           refused_session)
          = driver_log refused_session ++ [uploadExperimentToChannel 0 x;
                                           startUploadedExperiment 0]
       /\ stdout (exec (invoke refusing (call_setup_EIS_potentiostatic 10000 1000 10 0 100 1))
                       refused_session)
          = [header; "Uploading experiment"; "Experiment is empty";
             "Setting potentiostat in start experiment modus"].
Proof.
  assert (Hh : handler refused_session <> None) by (cbv; discriminate).
  split; [exact Hh|].
  destruct (@failed_upload_still_starts Z refusing
              (call_setup_EIS_potentiostatic 10000 1000 10 0 100 1) refused_session Hh)
    as (header & x & Hres & _ & Hlog & Hout).
  exists header, x. split; [exact Hres|]. split; [exact Hlog|].
  exact (Hout eq_refl).
Defined.

(** * Further properties of the wrapper *)

Section Construction.
Variable value : Type.
Variable drv : driver value.



(** X2.  When the driver finds no instrument, [__init__] raises
    [AttributeError] at the first connection of a handler signal: the handler
    is [None], the only connection made is the tracker's device signal, and
    the object does not record what the driver emits afterwards: a sample, a
    step announcement or a stop leaves the world as it is. *)
Theorem init_without_instrument port instrument_name (w0 : world value) :
  connections w0 = [] ->
  instrument_found drv (driver_log w0 ++ [connectToDeviceOnComPort port])
    instrument_name = false ->
  let w := exec (__init__ drv port instrument_name) w0 in
  result (__init__ drv port instrument_name) w0 = Raised AttributeError
  /\ handler w = None
  /\ connections w = [(newDeviceConnected, self_on_device_connected)]
  /\ (forall e, signal_of e <> newDeviceConnected -> deliver e w = w).
Proof.
  intros Hc Hf w. subst w. components w0. run. rewrite Hf. run. subst.
  repeat match goal with |- _ /\ _ => split end; try reflexivity.
  intros e He. unfold deliver.
  cbn [connections fold_left fst snd app].
  destruct e; cbn [signal_eqb signal_of] in *; congruence.
Qed.

(** X3.  On an object without a handler, every experiment-setup call prints
    its banner and the upload banner and then raises [AttributeError]: the
    driver is not called, the start is not attempted, and no attribute of the
    object changes.  [start_experiment] alone raises in the same way. *)
Theorem setup_without_handler (c : setup_call value) (w : world value) :
  handler w = None ->
  (exists header,
     invoke drv c w
     = (Raised AttributeError,
        mkWorld (channel w) (handler w) (ac_data_list w) (dc_data_list w)
          (new_element_list w) (connections w) (quit_requested w)
          (stdout w ++ [header; "Uploading experiment"]) (driver_log w)))
  /\ start_experiment drv w
     = (Raised AttributeError,
        mkWorld (channel w) (handler w) (ac_data_list w) (dc_data_list w)
          (new_element_list w) (connections w) (quit_requested w)
          (stdout w ++ ["Setting potentiostat in start experiment modus"])
          (driver_log w)).
Proof.
  intros Hh. components w. cbn [handler] in Hh. subst. split.
  - destruct c; open_preset; eexists; run; rewrite <- app_assoc; reflexivity.
  - run. reflexivity.
Qed.
End Construction.

Section Streams.
Variable value : Type.
Variable drv : driver value.

Lemma mem_of_In (c : string) (l : list string) : In c l -> pd.mem c l = true.
Proof.
  intros H. unfold pd.mem. apply existsb_exists. exists c.
  split; [exact H | apply String.eqb_refl].
Qed.

Lemma no_new_column (l l' : list string) :
  incl l' l -> filter (fun c => negb (pd.mem c l)) l' = [].
Proof.
  induction l' as [|c l' IH]; intros H; [reflexivity|].
  cbn [filter]. rewrite mem_of_In by (apply H; now left). cbn.
  apply IH. intros x Hx. apply H. now right.
Qed.

Lemma table_ok_concat (cols : list string) (df : pd.DataFrame value) (r : pd.row value) :
  map fst r = cols -> table_ok cols df -> table_ok cols (pd.concat df (pd.of_dict r)).
Proof.
  intros Hr [Hc Hrows]. split.
  - cbn [pd.concat pd.of_dict pd.columns]. rewrite Hr, Hc.
    rewrite no_new_column by apply incl_refl. apply app_nil_r.
  - cbn [pd.concat pd.of_dict pd.rows]. apply Forall_app. split; [exact Hrows|].
    constructor; [exact Hr | constructor].
Qed.

(** What one emission does to a constructed session. *)
Lemma deliver_effect (e : emission value) (w : world value) :
  connections w = wiring ->
  let w' := deliver e w in
  connections w' = wiring
  /\ quit_requested w' = (quit_requested w || is_stop e)%bool
  /\ channel w' = channel w /\ handler w' = handler w
  /\ driver_log w' = driver_log w
  /\ pd.rows (ac_data_list w') = pd.rows (ac_data_list w) ++ ac_rows_in [e]
  /\ pd.rows (dc_data_list w') = pd.rows (dc_data_list w) ++ dc_rows_in [e]
  /\ pd.rows (new_element_list w') = pd.rows (new_element_list w) ++ step_rows_in [e]
  /\ (well_formed w -> well_formed w').
Proof.
  intros Hc w'. subst w'. rewrite deliver_wired by exact Hc.
  unfold well_formed, ac_rows_in, dc_rows_in, step_rows_in.
  components w. cbn [connections] in Hc. subst.
  destruct e; cbn [call_slot is_stop flat_map]; run_cases;
    cbn [pd.rows pd.concat pd.of_dict app];
    rewrite ?app_nil_r, ?orb_false_r, ?orb_true_r;
    repeat match goal with |- _ /\ _ => split end; try reflexivity;
    try (intros (Ha & Hd & Hs); (split; [|split]); try assumption;
         apply table_ok_concat; [reflexivity | assumption]);
    auto.
Qed.

Lemma rows_in_cons (e : emission value) (es : list (emission value)) :
  ac_rows_in (e :: es) = ac_rows_in [e] ++ ac_rows_in es
  /\ dc_rows_in (e :: es) = dc_rows_in [e] ++ dc_rows_in es
  /\ step_rows_in (e :: es) = step_rows_in [e] ++ step_rows_in es.
Proof.
  unfold ac_rows_in, dc_rows_in, step_rows_in. cbn [flat_map].
  now rewrite !app_nil_r.
Qed.

Lemma event_loop_stream (pre : list (emission value)) ch post :
  forall w : world value,
    connections w = wiring -> quit_requested w = false ->
    existsb (@is_stop value) pre = false ->
    exists w',
      event_loop (pre ++ emit_experimentStopped ch :: post) w = Some (w', post)
      /\ quit_requested w' = true
      /\ connections w' = wiring
      /\ channel w' = channel w /\ handler w' = handler w
      /\ driver_log w' = driver_log w
      /\ pd.rows (ac_data_list w') = pd.rows (ac_data_list w) ++ ac_rows_in pre
      /\ pd.rows (dc_data_list w') = pd.rows (dc_data_list w) ++ dc_rows_in pre
      /\ pd.rows (new_element_list w')
         = pd.rows (new_element_list w) ++ step_rows_in pre
      /\ (well_formed w -> well_formed w').
Proof.
  induction pre as [|e pre IH]; intros w Hc Hq Hn.
  - cbn [app event_loop].
    destruct (deliver_effect (emit_experimentStopped ch) w Hc)
      as (Hc' & Hq' & Hch & Hh & Hl & Ha & Hd & Hs & Hw).
    rewrite Hq', Hq. cbn [is_stop orb].
    eexists. split; [reflexivity|].
    rewrite Hq', Hq, Ha, Hd, Hs. cbn. rewrite !app_nil_r. auto 12.
  - cbn [existsb] in Hn. apply orb_false_iff in Hn. destruct Hn as [He Hn].
    cbn [app event_loop].
    destruct (deliver_effect e w Hc) as (Hc' & Hq' & Hch & Hh & Hl & Ha & Hd & Hs & Hw).
    rewrite Hq', Hq, He. cbn [orb].
    destruct (IH (deliver e w) Hc') as (w' & Hrun & Hq2 & Hc2 & Hch2 & Hh2 & Hl2
                                          & Ha2 & Hd2 & Hs2 & Hw2).
    + now rewrite Hq', Hq, He.
    + exact Hn.
    + exists w'. split; [exact Hrun|].
      destruct (rows_in_cons e pre) as (Ra & Rd & Rs).
      rewrite Ha2, Hd2, Hs2, Ha, Hd, Hs, Ra, Rd, Rs, <- !app_assoc.
      repeat match goal with |- _ /\ _ => split end; try congruence; auto.
Qed.


Lemma event_loop_starves (pending : list (emission value)) :
  forall w : world value,
    connections w = wiring -> quit_requested w = false ->
    existsb (@is_stop value) pending = false ->
    event_loop pending w = None.
Proof.
  induction pending as [|e pending IH]; intros w Hc Hq Hn; [reflexivity|].
  cbn [existsb] in Hn. apply orb_false_iff in Hn. destruct Hn as [He Hn].
  cbn [event_loop].
  destruct (deliver_effect e w Hc) as (Hc' & Hq' & _).
  rewrite Hq', Hq, He. cbn [orb].
  apply IH; [exact Hc' | now rewrite Hq', Hq, He | exact Hn].
Qed.

(** X5.  On a constructed session [run_experiment] never returns when the
    driver emits no stop signal, however many samples and step announcements
    it delivers: nothing else in the wrapper ends the event loop. *)
Theorem run_without_stop_never_returns
  (pending : list (emission value)) (w : world value) :
  constructed w ->
  existsb (@is_stop value) pending = false ->
  run_experiment pending w = None.
Proof.
  intros [_ Hc] Hn. unfold run_experiment, exec_.
  apply event_loop_starves; [exact Hc | reflexivity | exact Hn].
Qed.
End Streams.

Section Reading.
Variable value : Type.
Variable drv : driver value.

Lemma empty_is_nil (cols : list string) (df : pd.DataFrame value) :
  cols <> [] -> table_ok cols df -> pd.empty df = is_nil (pd.rows df).
Proof.
  intros Hn [Hc _]. unfold pd.empty. rewrite Hc.
  destruct cols; [congruence|]. now destruct (pd.rows df).
Qed.

(** X6.  [get_data] only reads and prints: it returns normally, prints two
    lines, and leaves every attribute and the driver log as they were.  The
    tables it returns are the stored tables themselves; the AC table is
    returned as [None] exactly when it is empty, and the two results are
    never both [None]. *)
Theorem get_data_reads_only (w : world value) :
  exists a d line,
    get_data w
    = (Returned (a, d),
       mkWorld (channel w) (handler w) (ac_data_list w) (dc_data_list w)
         (new_element_list w) (connections w) (quit_requested w)
         (stdout w ++ ["Returning data"; line]) (driver_log w))
    /\ (a = None <-> pd.empty (ac_data_list w) = true)
    /\ (forall df, a = Some df -> df = ac_data_list w)
    /\ (forall df, d = Some df -> df = dc_data_list w)
    /\ (a <> None \/ d <> None).
Proof.
  components w. run_cases; do 3 eexists;
    (split; [rewrite <- app_assoc; reflexivity|]);
    cbn [ac_data_list dc_data_list];
    repeat match goal with |- _ /\ _ => split end;
    try (intros df [= <-]; reflexivity);
    try (split; congruence);
    try (right; discriminate); try (left; discriminate);
    try discriminate.
Qed.

Lemma get_data_reads_only_frame (w : world value) :
  connections (exec (@get_data value) w) = connections w
  /\ ac_data_list (exec (@get_data value) w) = ac_data_list w
  /\ dc_data_list (exec (@get_data value) w) = dc_data_list w
  /\ new_element_list (exec (@get_data value) w) = new_element_list w.
Proof. components w. run_cases; auto. Qed.

Lemma run_stream (pre : list (emission value)) ch post (w : world value) :
  connections w = wiring ->
  existsb (@is_stop value) pre = false ->
  exists w',
    run_experiment (pre ++ emit_experimentStopped ch :: post) w = Some (w', post)
    /\ connections w' = wiring /\ handler w' = handler w
    /\ pd.rows (ac_data_list w') = pd.rows (ac_data_list w) ++ ac_rows_in pre
    /\ pd.rows (dc_data_list w') = pd.rows (dc_data_list w) ++ dc_rows_in pre
    /\ pd.rows (new_element_list w')
       = pd.rows (new_element_list w) ++ step_rows_in pre
    /\ (well_formed w -> well_formed w').
Proof.
  intros Hc Hn. unfold run_experiment, exec_.
  edestruct (event_loop_stream pre ch post) as (w' & Hrun & _ & Hc' & _ & Hh' & _
                                                 & Ha & Hd & Hs & Hw);
    [| | exact Hn | exists w'; split; [exact Hrun|]].
  - exact Hc.
  - reflexivity.
  - cbn [handler ac_data_list dc_data_list new_element_list] in *. auto 10.
Qed.

(** X7.  Data accumulates over runs until it is cleared.  On a constructed
    session, two runs with a [get_data] in between leave in each table the
    rows of before followed by the rows of the first run and then those of
    the second; with a [clear_data] before the second run the AC and the DC
    table hold the rows of the second run only, while the step table still
    holds everything. *)
Theorem data_accumulates_until_cleared
  (es1 es2 : list (emission value)) (ch1 ch2 : Z) (w : world value) :
  constructed w ->
  existsb (@is_stop value) es1 = false ->
  existsb (@is_stop value) es2 = false ->
  (exists w2,
     perform_all drv
       [do_run_experiment (es1 ++ [emit_experimentStopped ch1]); do_get_data;
        do_run_experiment (es2 ++ [emit_experimentStopped ch2])] w = Some w2
     /\ pd.rows (ac_data_list w2)
        = pd.rows (ac_data_list w) ++ ac_rows_in es1 ++ ac_rows_in es2
     /\ pd.rows (dc_data_list w2)
        = pd.rows (dc_data_list w) ++ dc_rows_in es1 ++ dc_rows_in es2)
  /\ (exists w2,
        perform_all drv
          [do_run_experiment (es1 ++ [emit_experimentStopped ch1]); do_get_data;
           do_clear_data;
           do_run_experiment (es2 ++ [emit_experimentStopped ch2])] w = Some w2
        /\ pd.rows (ac_data_list w2) = ac_rows_in es2
        /\ pd.rows (dc_data_list w2) = dc_rows_in es2
        /\ pd.rows (new_element_list w2)
           = pd.rows (new_element_list w) ++ step_rows_in es1 ++ step_rows_in es2).
Proof.
  intros [_ Hc] H1 H2.
  destruct (run_stream es1 ch1 [] w Hc H1) as (w1 & Hrun1 & Hc1 & _ & Ha1 & Hd1 & Hs1 & _).
  destruct (get_data_reads_only_frame w1) as (Hgc & Hga & Hgd & Hgs).
  split.
  - destruct (run_stream es2 ch2 [] (exec (@get_data value) w1)) as
        (w2 & Hrun2 & _ & _ & Ha2 & Hd2 & _); [congruence | exact H2 |].
    exists w2. cbn [perform_all perform]. rewrite Hrun1. cbn [option_map fst].
    rewrite Hrun2. cbn [option_map fst]. split; [reflexivity|].
    rewrite Ha2, Hd2, Hga, Hgd, Ha1, Hd1, <- !app_assoc. auto.
  - destruct (run_stream es2 ch2 []
                (exec (@clear_data value) (exec (@get_data value) w1))) as
        (w2 & Hrun2 & _ & _ & Ha2 & Hd2 & Hs2 & _); [| exact H2 |].
    + rewrite <- Hc1, <- Hgc. clear. generalize (exec (@get_data value) w1).
      intros w. components w. reflexivity.
    + exists w2. cbn [perform_all perform]. rewrite Hrun1. cbn [option_map fst].
      rewrite Hrun2. cbn [option_map fst]. split; [reflexivity|].
      rewrite Ha2, Hd2, Hs2.
      assert (Hk : new_element_list (exec (@clear_data value) (exec (@get_data value) w1))
                   = new_element_list w1).
      { rewrite <- Hgs. generalize (exec (@get_data value) w1).
        intros w0. components w0. reflexivity. }
      rewrite Hk, Hs1, <- app_assoc. auto.
Qed.
End Reading.

Section Histories.
Variable value : Type.
Variable drv : driver value.

(** X8.  What the caller reads after a run.  On a constructed session whose
    tables are well formed and whose AC and DC tables are empty, after a run
    that ends with the stop signal [get_data] hands out exactly what the run
    delivered: [None] for the AC table when no AC sample with a timestamp
    came, else [None] for the DC table when no DC sample with a timestamp
    came, else both tables; the rows of a table handed out are the rows of
    its signal in emission order. *)
Theorem get_data_after_run
  (pre : list (emission value)) (ch : Z) (post : list (emission value))
  (w : world value) :
  constructed w -> well_formed w ->
  pd.rows (ac_data_list w) = [] -> pd.rows (dc_data_list w) = [] ->
  existsb (@is_stop value) pre = false ->
  exists w',
    run_experiment (pre ++ emit_experimentStopped ch :: post) w = Some (w', post)
    /\ pd.rows (ac_data_list w') = ac_rows_in pre
    /\ pd.rows (dc_data_list w') = dc_rows_in pre
    /\ result (@get_data value) w'
       = Returned (if is_nil (ac_rows_in pre) then (None, Some (dc_data_list w'))
                   else if is_nil (dc_rows_in pre) then (Some (ac_data_list w'), None)
                   else (Some (ac_data_list w'), Some (dc_data_list w'))).
Proof.
  intros [_ Hc] Hw Ha0 Hd0 Hn.
  destruct (run_stream pre ch post w Hc Hn) as (w' & Hrun & _ & _ & Ha & Hd & _ & Hw').
  exists w'. split; [exact Hrun|].
  rewrite Ha0 in Ha. rewrite Hd0 in Hd. cbn [app] in Ha, Hd.
  split; [exact Ha|]. split; [exact Hd|].
  destruct (Hw' Hw) as (Hta & Htd & _).
  rewrite get_data_returns.
  rewrite (@empty_is_nil value ac_columns (ac_data_list w')) by (discriminate || exact Hta).
  rewrite (@empty_is_nil value dc_columns (dc_data_list w')) by (discriminate || exact Htd).
  now rewrite Ha, Hd.
Qed.

(** An invariant of every slot is an invariant of the event loop, whatever
    is connected to what. *)
Lemma deliver_invariant (P : world value -> Prop) :
  (forall f e w, P w -> P (exec (call_slot f e) w)) ->
  forall e w, P w -> P (deliver e w).
Proof.
  intros Hslot e w. unfold deliver. generalize (connections w) as cs.
  intros cs. revert w. induction cs as [|c cs IH]; intros w Hw; cbn [fold_left].
  - exact Hw.
  - apply IH. destruct (signal_eqb (fst c) (signal_of e)); auto.
Qed.

Lemma run_experiment_invariant (P : world value -> Prop) :
  (forall f e w, P w -> P (exec (call_slot f e) w)) ->
  (forall c h a d s cs q q' o l,
      P (mkWorld c h a d s cs q o l) -> P (mkWorld c h a d s cs q' o l)) ->
  forall pending w w' rest,
    P w -> run_experiment pending w = Some (w', rest) -> P w'.
Proof.
  intros Hslot Hquit pending w w' rest Hw. unfold run_experiment, exec_.
  assert (Hstart : P (mkWorld (channel w) (handler w) (ac_data_list w)
                        (dc_data_list w) (new_element_list w) (connections w)
                        false (stdout w) (driver_log w))).
  { components w. eapply Hquit, Hw. }
  revert Hstart. generalize (mkWorld (channel w) (handler w) (ac_data_list w)
                        (dc_data_list w) (new_element_list w) (connections w)
                        false (stdout w) (driver_log w)).
  clear w Hw. induction pending as [|e pending IH]; intros w Hw; cbn [event_loop].
  - discriminate.
  - destruct (quit_requested (deliver e w)) eqn:Hq.
    + intros [= <- _]. now apply deliver_invariant.
    + apply IH. now apply deliver_invariant.
Qed.

Lemma invoke_keeps_tables (c : setup_call value) (w : world value) :
  ac_data_list (exec (invoke drv c) w) = ac_data_list w
  /\ dc_data_list (exec (invoke drv c) w) = dc_data_list w
  /\ new_element_list (exec (invoke drv c) w) = new_element_list w.
Proof.
  components w. destruct c; open_preset; run_cases; auto.
Qed.

Lemma call_slot_well_formed (f : slot) (e : emission value) (w : world value) :
  well_formed w -> well_formed (exec (call_slot f e) w).
Proof.
  unfold well_formed. components w.
  destruct f, e; cbn [call_slot]; run_cases; try (intros H; exact H);
    intros (Ha & Hd & Hs); (split; [|split]); try assumption;
    apply table_ok_concat; (reflexivity || assumption).
Qed.

(** X9.  The tables keep their shape.  From tables that are well formed (as
    [__init__] leaves them), after any sequence of method calls that has
    returned, each of the three tables still has exactly its own header, and
    every row has exactly the cells of that header, in its order. *)
Theorem tables_stay_well_formed
  (ms : list (method_call value)) (w w' : world value) :
  well_formed w -> perform_all drv ms w = Some w' -> well_formed w'.
Proof.
  revert w. induction ms as [|m ms IH]; intros w Hw; cbn [perform_all].
  - now intros [= <-].
  - destruct (perform drv m w) as [w1|] eqn:Hm; [|discriminate].
    apply IH. clear IH ms w'. revert Hm.
    destruct m; cbn [perform];
      try (intros [= <-];
           first [ apply (call_slot_well_formed self_handle_dc_data
                            (emit_activeDCDataReady channel0 data)), Hw
                 | apply (call_slot_well_formed self_handle_ac_data
                            (emit_activeACDataReady channel0 data)), Hw
                 | apply (call_slot_well_formed self_handle_new_element
                            (emit_experimentNewElementStarting channel0 data)), Hw
                 | destruct (invoke_keeps_tables c w) as (Ea & Ed & Es);
                   unfold well_formed; rewrite Ea, Ed, Es; exact Hw
                 | revert Hw; unfold well_formed; components w; run_cases;
                   try (intros H; exact H);
                   intros (Ha & Hd & Hs); repeat split; try apply Ha;
                   try apply Hd; try apply Hs; constructor ]).
    destruct (run_experiment pending w) as [[w2 rest]|] eqn:Hr; cbn; [|discriminate].
    intros [= <-].
    eapply (@run_experiment_invariant (@well_formed value)); [| | exact Hw | exact Hr].
    + apply call_slot_well_formed.
    + intros. assumption.
Qed.
End Histories.

Section Frame.
Variable value : Type.
Variable drv : driver value.

Lemma quiet_method_keeps_data (m : method_call value) (w w' : world value) :
  touches_data m = false -> perform drv m w = Some w' ->
  ac_data_list w' = ac_data_list w /\ dc_data_list w' = dc_data_list w.
Proof.
  destruct m; cbn [touches_data perform]; try discriminate; intros _ [= <-];
    try (destruct (invoke_keeps_tables drv c w) as (Ea & Ed & _); now split);
    components w; run_cases; auto.
Qed.

(** X10.  Only the two sample callbacks, a run and [clear_data] change the
    AC and the DC table: after any sequence of other calls (the presets,
    uploads and starts, [get_data], the step and the stop callback,
    connecting, closing) both tables are exactly what they were. *)
Theorem other_methods_keep_data
  (ms : list (method_call value)) (w w' : world value) :
  existsb (@touches_data value) ms = false ->
  perform_all drv ms w = Some w' ->
  ac_data_list w' = ac_data_list w /\ dc_data_list w' = dc_data_list w.
Proof.
  revert w. induction ms as [|m ms IH]; intros w Hq; cbn [perform_all].
  - now intros [= <-].
  - cbn [existsb] in Hq. apply orb_false_iff in Hq. destruct Hq as [Hm Hq].
    destruct (perform drv m w) as [w1|] eqn:Hp; [|discriminate].
    intros H. destruct (IH w1 Hq H) as [Ea Ed].
    destruct (quiet_method_keeps_data m w Hm Hp) as [Ea' Ed'].
    split; congruence.
Qed.

Lemma call_slot_keeps_log (L : list (driver_call value)) (c : Z)
  (f : slot) (e : emission value) (w : world value) :
  driver_log w = L /\ channel w = c ->
  driver_log (exec (call_slot f e) w) = L /\ channel (exec (call_slot f e) w) = c.
Proof.
  components w. destruct f, e; cbn [call_slot]; run_cases; auto.
Qed.

Lemma silent_method_keeps_log (m : method_call value) (w w' : world value) :
  calls_driver m = false -> perform drv m w = Some w' ->
  driver_log w' = driver_log w /\ channel w' = channel w.
Proof.
  destruct m; cbn [calls_driver perform]; try discriminate; intros _;
    try (intros [= <-]; components w; run_cases; auto; fail).
  destruct (run_experiment pending w) as [[w2 rest]|] eqn:Hr; cbn; [|discriminate].
  intros [= <-].
  eapply (@run_experiment_invariant value
            (fun x => driver_log x = driver_log w /\ channel x = channel w));
    [| | | exact Hr]; auto.
  intros f e x. apply call_slot_keeps_log.
Qed.

(** X11.  The wrapper calls the driver only from [connect_to_device],
    [upload_experiment], [start_experiment] and the presets: after any
    sequence of other calls (runs of the event loop with whatever the driver
    emits, the callbacks, [get_data], [clear_data], closing) the driver log
    and the channel are exactly what they were. *)
Theorem other_methods_never_call_driver
  (ms : list (method_call value)) (w w' : world value) :
  existsb (@calls_driver value) ms = false ->
  perform_all drv ms w = Some w' ->
  driver_log w' = driver_log w /\ channel w' = channel w.
Proof.
  revert w. induction ms as [|m ms IH]; intros w Hq; cbn [perform_all].
  - now intros [= <-].
  - cbn [existsb] in Hq. apply orb_false_iff in Hq. destruct Hq as [Hm Hq].
    destruct (perform drv m w) as [w1|] eqn:Hp; [|discriminate].
    intros H. destruct (IH w1 Hq H) as [El Ec].
    destruct (silent_method_keeps_log m w Hm Hp) as [El' Ec'].
    split; congruence.
Qed.



End Frame.

(** * Closed instances of the further properties *)


Lemma init_without_instrument_witness :
  connections unborn = []
  /\ instrument_found absent (driver_log unborn ++ [connectToDeviceOnComPort "COM5"])
       "Plus1894" = false
  /\ result (__init__ absent "COM5" "Plus1894") unborn = Raised AttributeError
  /\ handler orphan_session = None
  /\ deliver (emit_activeDCDataReady 0 dc_sample) orphan_session = orphan_session.
Proof.
  destruct (@init_without_instrument Z absent "COM5" "Plus1894" unborn eq_refl eq_refl)
    as (Hr & Hh & _ & Hd).
  split; [reflexivity|]. split; [reflexivity|]. split; [exact Hr|].
  split; [exact Hh|]. apply Hd. discriminate.
Defined.

Lemma setup_without_handler_witness :
  handler orphan_session = None
  /\ result (invoke absent (call_setup_OCP 10 1)) orphan_session = Raised AttributeError
  /\ driver_log (exec (invoke absent (call_setup_OCP 10 1)) orphan_session)
     = driver_log orphan_session.
Proof.
  split; [reflexivity|].
  destruct (proj1 (@setup_without_handler Z absent (call_setup_OCP 10 1)
                     orphan_session eq_refl)) as (header & H).
  unfold result, exec. rewrite H. split; reflexivity.
Defined.


Lemma run_without_stop_never_returns_witness :
  constructed fresh_session
  /\ existsb (@is_stop Z) example_stream = false
  /\ run_experiment example_stream fresh_session = None.
Proof.
  assert (H : constructed fresh_session)
    by (split; [cbv; discriminate | reflexivity]).
  split; [exact H|]. split; [reflexivity|].
  exact (@run_without_stop_never_returns Z example_stream fresh_session H eq_refl).
Defined.

Lemma data_accumulates_until_cleared_witness :
  constructed fresh_session
  /\ existsb (@is_stop Z) example_stream = false
  /\ exists w2,
       perform_all obliging
         [do_run_experiment (example_stream ++ [emit_experimentStopped 0]); do_get_data;
          do_run_experiment (example_stream ++ [emit_experimentStopped 0])]
         fresh_session = Some w2
       /\ pd.rows (dc_data_list w2) = [dc_row 1 dc_sample; dc_row 1 dc_sample].
Proof.
  assert (H : constructed fresh_session)
    by (split; [cbv; discriminate | reflexivity]).
  split; [exact H|]. split; [reflexivity|].
  destruct (proj1 (@data_accumulates_until_cleared Z obliging example_stream
                     example_stream 0 0 fresh_session H eq_refl eq_refl))
    as (w2 & Hrun & _ & Hd).
  exists w2. split; [exact Hrun | exact Hd].
Defined.

Lemma get_data_after_run_witness :
  constructed fresh_session /\ well_formed fresh_session
  /\ exists w',
       run_experiment [emit_activeACDataReady 0 ac_sample; emit_experimentStopped 0]
                      fresh_session = Some (w', [])
       /\ result (@get_data Z) w' = Returned (Some (ac_data_list w'), None)
       /\ pd.rows (ac_data_list w') = [ac_row 1 ac_sample].
Proof.
  assert (H : constructed fresh_session)
    by (split; [cbv; discriminate | reflexivity]).
  assert (Hw : well_formed fresh_session)
    by (repeat split; constructor).
  split; [exact H|]. split; [exact Hw|].
  destruct (@get_data_after_run Z [emit_activeACDataReady 0 ac_sample] 0 []
              fresh_session H Hw eq_refl eq_refl eq_refl)
    as (w' & Hrun & Ha & _ & Hg).
  exists w'. split; [exact Hrun|]. split; [exact Hg | exact Ha].
Defined.

Lemma tables_stay_well_formed_witness :
  well_formed fresh_session
  /\ perform_all obliging example_calls fresh_session = Some example_final
  /\ well_formed example_final.
Proof.
  assert (Hw : well_formed fresh_session)
    by (repeat split; constructor).
  assert (H : perform_all obliging example_calls fresh_session = Some example_final)
    by (vm_compute; reflexivity).
  split; [exact Hw|]. split; [exact H|].
  exact (@tables_stay_well_formed Z obliging example_calls fresh_session
           example_final Hw H).
Defined.

Lemma other_methods_keep_data_witness :
  existsb (@touches_data Z) idle_calls = false
  /\ perform_all obliging idle_calls example_final = Some idle_final
  /\ ac_data_list idle_final = ac_data_list example_final
  /\ dc_data_list idle_final = dc_data_list example_final.
Proof.
  assert (H : perform_all obliging idle_calls example_final = Some idle_final)
    by (vm_compute; reflexivity).
  split; [reflexivity|]. split; [exact H|].
  exact (@other_methods_keep_data Z obliging idle_calls example_final idle_final
           eq_refl H).
Defined.

Lemma other_methods_never_call_driver_witness :
  existsb (@calls_driver Z) idle_calls = false
  /\ perform_all obliging idle_calls example_final = Some idle_final
  /\ driver_log idle_final = driver_log example_final
  /\ channel idle_final = channel example_final.
Proof.
  assert (H : perform_all obliging idle_calls example_final = Some idle_final)
    by (vm_compute; reflexivity).
  split; [reflexivity|]. split; [exact H|].
  exact (@other_methods_never_call_driver Z obliging idle_calls example_final
           idle_final eq_refl H).
Defined.

